(** * apple-assn-gateway: the notification verification and normalisation
      pipeline of [api/webhook.js] and its sibling endpoints.

    The three endpoints of the repository are embedded side by side:
    - [Webhook]    : api/webhook.js, lines 1-145 (local key set looked up
                     by kid, x5c fallback, raw body parsed by the handler);
    - [WebhookKid] : the kid-only webhook (local key set looked up by kid,
                     body parsed by the platform);
    - [Assn]       : api/assn (remote key set handed to jose, a body
                     without signedPayload refused).
    [msToIso], [mapOperation] and the construction of the record [out] are
    textually the same in the three files and are embedded once.  The text
    that follows line 145 of api/webhook.js holds two more handlers of
    the same shape as the kid-only webhook's: [WebhookBare] (lines
    146-213, the handler alone, over whatever verifier it is deployed
    with) and [WebhookLocal] (lines 214-313, the local key set handed to
    jose).

    JavaScript values are embedded as the type [JSON]; numbers are the
    integral Numbers (the App Store sends integral epoch values and ids),
    strings are byte strings whose case conversions are those of ASCII.
    Exceptions are values of [exn]; [await] and [throw] are the error monad
    [M], which also records the calls made to jose and to [fetch].
    Console output is not part of the embedding. *)

From Stdlib Require Import ZArith List String Ascii Bool Lia.
From Stdlib Require Import DecimalString DecimalPos DecimalZ.
Import ListNotations.
Set Warnings "-register-all".
Open Scope string_scope.
Open Scope Z_scope.

(* ------------------------------------------------------------------ *)
(** ** JavaScript values *)

Inductive JSON : Type :=
| JUndefined
| JNull
| JBool (b : bool)
| JNum (n : Z)
| JStr (s : string)
| JArr (items : list JSON)
| JObj (props : list (string * JSON)).

(** A thrown value: every exception the pipeline meets is an [Error]
    object, which [String(e)] prints from its name and message. *)
Record exn : Type := mkExn { exn_name : string; exn_message : string }.

Inductive result (A : Type) : Type :=
| Ok (a : A)
| Throw (e : exn).
Arguments Ok {A} a.
Arguments Throw {A} e.

Definition Error (msg : string) : exn := mkExn "Error" msg.
Definition TypeError (msg : string) : exn := mkExn "TypeError" msg.
Definition RangeError (msg : string) : exn := mkExn "RangeError" msg.

(** [Error.prototype.toString]. *)
Definition String_of_exn (e : exn) : string :=
  if String.eqb (exn_name e) "" then exn_message e
  else if String.eqb (exn_message e) "" then exn_name e
  else exn_name e ++ ": " ++ exn_message e.

Definition bind_result {A B : Type} (c : result A) (k : A -> result B) : result B :=
  match c with
  | Ok a => k a
  | Throw e => Throw e
  end.

Notation "x <- c ;; k" := (bind_result c (fun x => k))
  (at level 61, c at next level, right associativity).

(** ToBoolean. *)
Definition truthy (v : JSON) : bool :=
  match v with
  | JUndefined | JNull => false
  | JBool b => b
  | JNum n => negb (n =? 0)
  | JStr s => negb (String.eqb s "")
  | JArr _ | JObj _ => true
  end.

(** [a || b]. *)
Definition js_or (a b : JSON) : JSON := if truthy a then a else b.

Fixpoint lookup (k : string) (props : list (string * JSON)) : option JSON :=
  match props with
  | [] => None
  | (k', v) :: rest => if String.eqb k k' then Some v else lookup k rest
  end.

(** [o?.k]: undefined on null and undefined, the own property of an object,
    the length of an array or a string, undefined for every other name the
    handlers read (none of them is a prototype property). *)
Definition get (o : JSON) (k : string) : JSON :=
  match o with
  | JObj props => match lookup k props with Some v => v | None => JUndefined end
  | JArr items => if String.eqb k "length" then JNum (Z.of_nat (List.length items))
                  else JUndefined
  | JStr s => if String.eqb k "length" then JNum (Z.of_nat (String.length s))
              else JUndefined
  | _ => JUndefined
  end.

(** [o.k] without the question mark: a TypeError on null and undefined. *)
Definition get_strict (o : JSON) (k : string) : result JSON :=
  match o with
  | JUndefined => Throw (TypeError ("Cannot read properties of undefined (reading '" ++ k ++ "')"))
  | JNull => Throw (TypeError ("Cannot read properties of null (reading '" ++ k ++ "')"))
  | _ => Ok (get o k)
  end.

(** [a === b] for values that come from separate parses: primitives are
    compared by value, two arrays or two objects are never the same
    reference. *)
Definition strict_equals (a b : JSON) : bool :=
  match a, b with
  | JUndefined, JUndefined => true
  | JNull, JNull => true
  | JBool x, JBool y => Bool.eqb x y
  | JNum x, JNum y => x =? y
  | JStr x, JStr y => String.eqb x y
  | _, _ => false
  end.

(** Number::toString for an integral Number below 10^21 in magnitude. *)
Definition decimal (n : Z) : string := NilZero.string_of_int (Z.to_int n).

Definition join_comma (parts : list string) : string := String.concat "," parts.

Definition cannot_convert : exn := TypeError "Cannot convert object to primitive value".

(** ToString.  An array prints its elements joined by commas, null and
    undefined elements as nothing; an object prints as [object Object],
    unless an own property shadows toString (it cannot be callable in a
    decoded claim set, and Object.prototype.valueOf gives no primitive). *)
Fixpoint String_ (v : JSON) : result string :=
  match v with
  | JUndefined => Ok "undefined"
  | JNull => Ok "null"
  | JBool true => Ok "true"
  | JBool false => Ok "false"
  | JNum n => Ok (decimal n)
  | JStr s => Ok s
  | JArr items =>
      let join :=
        fix join (l : list JSON) : result (list string) :=
          match l with
          | [] => Ok []
          | x :: rest =>
              match (match x with
                     | JUndefined | JNull => Ok ""
                     | _ => String_ x
                     end) with
              | Throw e => Throw e
              | Ok s => match join rest with
                        | Throw e => Throw e
                        | Ok ss => Ok (s :: ss)
                        end
              end
          end in
      match join items with
      | Ok ss => Ok (join_comma ss)
      | Throw e => Throw e
      end
  | JObj props =>
      match lookup "toString" props with
      | Some _ => Throw cannot_convert
      | None => Ok "[object Object]"
      end
  end.


(* ------------------------------------------------------------------ *)
(** ** Date *)

(** TimeClip of [new Date(value)]: a time value is an integral number of
    milliseconds of magnitude at most 8.64e15, anything else is NaN. *)
Definition Date_ (value : option Z) : option Z :=
  match value with
  | Some t => if Z.abs t <=? 8640000000000000 then Some t else None
  | None => None
  end.

Definition msPerDay : Z := 86400000.

(** Year, month and day of the month of a day number (days since
    1970-01-01) in the proleptic Gregorian calendar. *)
Definition civil_from_days (days : Z) : Z * Z * Z :=
  let z := days + 719468 in
  let era := z / 146097 in
  let doe := z - era * 146097 in
  let yoe := (doe - doe / 1460 + doe / 36524 - doe / 146096) / 365 in
  let doy := doe - (365 * yoe + yoe / 4 - yoe / 100) in
  let mp := (5 * doy + 2) / 153 in
  let d := doy - (153 * mp + 2) / 5 + 1 in
  let m := if mp <? 10 then mp + 3 else mp - 9 in
  let y := yoe + era * 400 + (if m <=? 2 then 1 else 0) in
  (y, m, d).

Definition digit (n : Z) : string :=
  String (ascii_of_nat (48 + Z.to_nat (n mod 10))) "".

(** The last [width] decimal digits of [n], zero padded. *)
Fixpoint pad (width : nat) (n : Z) : string :=
  match width with
  | O => ""
  | S w => pad w (n / 10) ++ digit n
  end.

Definition invalid_time : exn := RangeError "Invalid time value".

(** [Date.prototype.toISOString]: YYYY-MM-DDTHH:mm:ss.sssZ, the year with a
    sign and six digits outside 0..9999, a RangeError on an invalid date. *)
Definition toISOString (tv : option Z) : result string :=
  match tv with
  | None => Throw invalid_time
  | Some t =>
      let '(y, m, d) := civil_from_days (t / msPerDay) in
      let ms := t mod msPerDay in
      let year := if (0 <=? y) && (y <=? 9999) then pad 4 y
                  else (if y <? 0 then "-" else "+") ++ pad 6 (Z.abs y) in
      Ok (year ++ "-" ++ pad 2 m ++ "-" ++ pad 2 d ++ "T" ++
          pad 2 (ms / 3600000) ++ ":" ++ pad 2 (ms / 60000 mod 60) ++ ":" ++
          pad 2 (ms / 1000 mod 60) ++ "." ++ pad 3 (ms mod 1000) ++ "Z")
  end.

(* ------------------------------------------------------------------ *)
(** ** Strings *)

Definition upper_ascii (c : ascii) : ascii :=
  let n := nat_of_ascii c in
  if ((97 <=? n) && (n <=? 122))%nat then ascii_of_nat (n - 32) else c.

Definition lower_ascii (c : ascii) : ascii :=
  let n := nat_of_ascii c in
  if ((65 <=? n) && (n <=? 90))%nat then ascii_of_nat (n + 32) else c.

Fixpoint map_string (f : ascii -> ascii) (s : string) : string :=
  match s with
  | EmptyString => EmptyString
  | String c rest => String (f c) (map_string f rest)
  end.

(** [String.prototype.toUpperCase] and [toLowerCase] on ASCII text. *)
Definition toUpperCase : string -> string := map_string upper_ascii.
Definition toLowerCase : string -> string := map_string lower_ascii.


(* ------------------------------------------------------------------ *)
(** ** The run-time the handlers call into *)

(** What the JavaScript run-time and the deployment supply.
    [StringToNumber] is the numeric reading of a string ([None] is NaN);
    [JSON_parse] is [JSON.parse]; [fetch] answers a POST of a JSON body to
    a url with a shared-secret header by a status, or rejects. *)
Record Runtime : Type := mkRuntime {
  StringToNumber : string -> option Z;
  JSON_parse : string -> result JSON;
  fetch : option string -> string -> JSON -> result Z
}.

Section Normalizer.

Variable rt : Runtime.

(** ToNumber; [None] is NaN. *)
Definition Number_ (v : JSON) : result (option Z) :=
  match v with
  | JUndefined => Ok None
  | JNull => Ok (Some 0)
  | JBool b => Ok (Some (if b then 1 else 0))
  | JNum n => Ok (Some n)
  | JStr s => Ok (StringToNumber rt s)
  | JArr _ =>
      match String_ v with
      | Ok s => Ok (StringToNumber rt s)
      | Throw e => Throw e
      end
  | JObj _ =>
      match String_ v with
      | Ok _ => Ok None
      | Throw e => Throw e
      end
  end.

(** <<
    function msToIso(ms) {
      if (!ms) return null;
      const n = Number(ms);
      return new Date(n > 1e12 ? n : n * 1000).toISOString();
    }
    >> *)
Definition msToIso (ms : JSON) : result JSON :=
  if negb (truthy ms) then Ok JNull
  else
    match Number_ ms with
    | Throw e => Throw e
    | Ok n =>
        let value :=
          match n with
          | Some n => Some (if n >? 10 ^ 12 then n else n * 1000)
          | None => None
          end in
        match toISOString (Date_ value) with
        | Ok s => Ok (JStr s)
        | Throw e => Throw e
        end
    end.

(** [v.toUpperCase()]: only a string has the method. *)
Definition call_toUpperCase (v : JSON) : result string :=
  match v with
  | JStr s => Ok (toUpperCase s)
  | _ => Throw (TypeError "(intermediate value).toUpperCase is not a function")
  end.

(** <<
    function mapOperation(note, renInfo) {
      const t = (note?.notificationType || '').toUpperCase();
      switch (t) {
        case 'SUBSCRIBED': return 'purchase';
        case 'DID_RENEW': return 'renew';
        case 'DID_CHANGE_RENEWAL_STATUS':
          return (renInfo?.autoRenewStatus === 'OFF') ? 'auto_renew_off' : 'auto_renew_on';
        case 'DID_FAIL_TO_RENEW': return 'renew_failed';
        case 'GRACE_PERIOD_EXPIRED': return 'grace_expired';
        case 'EXPIRED': return 'expired';
        case 'REFUND':
        case 'REVOKE': return 'revoked';
        default: return t.toLowerCase() || 'other';
      }
    }
    >> *)
Definition mapOperation (note renInfo : JSON) : result string :=
  match call_toUpperCase (js_or (get note "notificationType") (JStr "")) with
  | Throw e => Throw e
  | Ok t =>
      Ok (if String.eqb t "SUBSCRIBED" then "purchase"
          else if String.eqb t "DID_RENEW" then "renew"
          else if String.eqb t "DID_CHANGE_RENEWAL_STATUS" then
                 (if strict_equals (get renInfo "autoRenewStatus") (JStr "OFF")
                  then "auto_renew_off" else "auto_renew_on")
          else if String.eqb t "DID_FAIL_TO_RENEW" then "renew_failed"
          else if String.eqb t "GRACE_PERIOD_EXPIRED" then "grace_expired"
          else if String.eqb t "EXPIRED" then "expired"
          else if String.eqb t "REFUND" then "revoked"
          else if String.eqb t "REVOKE" then "revoked"
          else if String.eqb (toLowerCase t) "" then "other" else toLowerCase t)
  end.

(** The record [out] that the handlers build from the decoded layers
    (api/webhook.js lines 99-120, the same text in the sibling endpoints),
    in the order in which JavaScript evaluates it.  [now] is the reading
    of the clock by [new Date()].
    <<
    const productId = txnInfo?.productId || renInfo?.autoRenewPreference || '';
    const expiresIso = msToIso(txnInfo?.expiresDate);
    const operation = mapOperation(note, renInfo);
    const out = {
      now: new Date().toISOString(),
      source: 'apple-assn',
      operation,
      environment: note?.data?.environment || '',
      notification_uuid: note?.notificationUUID || '',
      type: note?.notificationType || '',
      subtype: note?.subtype || '',
      transaction_id: String(txnInfo?.transactionId || ''),
      transaction_expires_at: expiresIso,
      products: productId ? [productId] : [],
      entitlements: productId ? [{
        product_id: productId,
        original_transaction_id: String(txnInfo?.originalTransactionId || ''),
        expires_at: expiresIso
      }] : [],
      app_account_token: txnInfo?.appAccountToken || renInfo?.appAccountToken || ''
    };
    >> *)
Definition productId_of (txnInfo renInfo : JSON) : JSON :=
  js_or (js_or (get txnInfo "productId") (get renInfo "autoRenewPreference")) (JStr "").

Definition normalize (now : Z) (note txnInfo renInfo : JSON) : result JSON :=
  let productId := productId_of txnInfo renInfo in
  expiresIso <- msToIso (get txnInfo "expiresDate") ;;
  operation <- mapOperation note renInfo ;;
  nowIso <- toISOString (Date_ (Some now)) ;;
  transaction_id <- String_ (js_or (get txnInfo "transactionId") (JStr "")) ;;
  entitlements <-
    (if truthy productId then
       original_transaction_id <-
         String_ (js_or (get txnInfo "originalTransactionId") (JStr "")) ;;
       Ok [JObj [("product_id", productId);
                 ("original_transaction_id", JStr original_transaction_id);
                 ("expires_at", expiresIso)]]
     else Ok []) ;;
  Ok (JObj
        [("now", JStr nowIso);
         ("source", JStr "apple-assn");
         ("operation", JStr operation);
         ("environment", js_or (get (get note "data") "environment") (JStr ""));
         ("notification_uuid", js_or (get note "notificationUUID") (JStr ""));
         ("type", js_or (get note "notificationType") (JStr ""));
         ("subtype", js_or (get note "subtype") (JStr ""));
         ("transaction_id", JStr transaction_id);
         ("transaction_expires_at", expiresIso);
         ("products", JArr (if truthy productId then [productId] else []));
         ("entitlements", JArr entitlements);
         ("app_account_token",
          js_or (js_or (get txnInfo "appAccountToken") (get renInfo "appAccountToken"))
                (JStr ""))]).

End Normalizer.

(* ------------------------------------------------------------------ *)
(** ** jose, and the effects of a handler *)

(** The functions the endpoints import from jose.  [Key] is whatever
    [jwtVerify] takes as its second argument: an imported key, or the
    key-set function made by [createRemoteJWKSet].  The third argument of
    [jwtVerify] is the [algorithms] option. *)
Record Jose : Type := mkJose {
  Key : Type;
  decodeProtectedHeader : JSON -> result JSON;
  importJWK : JSON -> string -> result Key;
  importX509 : string -> string -> result Key;
  createRemoteJWKSet : string -> Key;
  jwtVerify : JSON -> Key -> list string -> result JSON
}.

(** What a handler does to the outside: the tokens it has jose decode and
    verify, and the POST it sends downstream. *)
Inductive event : Type :=
| DecodeHeader (jws : JSON)
| Verify (jws : JSON) (algorithms : list string)
| Forward (url : option string) (secret : string) (body : JSON).

(** An awaited computation: the events so far and a value or a rejection. *)
Definition M (A : Type) : Type := (list event * result A)%type.

Definition ret {A : Type} (a : A) : M A := ([], Ok a).
Definition throw {A : Type} (e : exn) : M A := ([], Throw e).
Definition lift {A : Type} (r : result A) : M A := ([], r).
Definition emit (ev : event) : M unit := ([ev], Ok tt).

Definition bind {A B : Type} (c : M A) (k : A -> M B) : M B :=
  match c with
  | (t, Ok a) => let '(t', r) := k a in ((t ++ t')%list, r)
  | (t, Throw e) => (t, Throw e)
  end.

Notation "x <~ c ;; k" := (bind c (fun x => k))
  (at level 61, c at next level, right associativity).

Definition trace {A : Type} (c : M A) : list event := fst c.
Definition outcome {A : Type} (c : M A) : result A := snd c.

(** What [res] was told: [res.status(n).send(text)] or [res.status(n).json(v)]. *)
Inductive Response : Type :=
| Send (status : Z) (text : string)
| Json (status : Z) (body : JSON).

Definition status_of (r : Response) : Z :=
  match r with Send n _ | Json n _ => n end.

(** [try { ... } catch (e) { return res.status(400).send(String(e)); }] *)
Definition try_catch (c : M Response) : list event * Response :=
  match c with
  | (t, Ok r) => (t, r)
  | (t, Throw e) => (t, Send 400 (String_of_exn e))
  end.

(** [process.env]. *)
Record Env : Type := mkEnv {
  BUBBLE_HOOK_URL : option string;
  BUBBLE_SECRET : option string
}.

Definition nl : string := String (ascii_of_nat 10) "".

(** [appleKeys.find(k => k.kid === kid)] *)
Fixpoint find_kid (kid : JSON) (keys : list JSON) : result JSON :=
  match keys with
  | [] => Ok JUndefined
  | k :: rest =>
      v <- get_strict k "kid" ;;
      if strict_equals v kid then Ok k else find_kid kid rest
  end.

(** [v[0]] *)
Definition index0 (v : JSON) : JSON :=
  match v with
  | JArr (x :: _) => x
  | JStr (String c _) => JStr (String c "")
  | JObj props => match lookup "0" props with Some x => x | None => JUndefined end
  | _ => JUndefined
  end.

Section Effects.

Variable rt : Runtime.
Variable J : Jose.
Variable env : Env.

(** [v > 0] *)
Definition gt_zero (v : JSON) : result bool :=
  n <- Number_ rt v ;;
  Ok (match n with Some n => 0 <? n | None => false end).

Definition call_decodeProtectedHeader (jws : JSON) : M JSON :=
  _ <~ emit (DecodeHeader jws) ;; lift (decodeProtectedHeader J jws).

Definition call_jwtVerify (jws : JSON) (key : Key J) (algorithms : list string) : M JSON :=
  _ <~ emit (Verify jws algorithms) ;; lift (jwtVerify J jws key algorithms).

(** <<
    const forward = await fetch(process.env.BUBBLE_HOOK_URL, {
      method: 'POST',
      headers: { 'content-type': 'application/json',
                 'x-hook-secret': process.env.BUBBLE_SECRET ?? '' },
      body: JSON.stringify(out) });
    return res.status(200).json({ forwardedStatus: forward.status });
    >> *)
Definition forward_out (out : JSON) : M Response :=
  let url := BUBBLE_HOOK_URL env in
  let secret := match BUBBLE_SECRET env with Some s => s | None => "" end in
  _ <~ emit (Forward url secret out) ;;
  status <~ lift (fetch rt url secret out) ;;
  ret (Json 200 (JObj [("forwardedStatus", JNum status)])).

End Effects.

(* ------------------------------------------------------------------ *)
(** ** api/webhook.js *)

Module Webhook.

(** The request as the handler reads it: the method, and the body stream
    ([data] chunks concatenated at [end], or an [error]). *)
Record Request : Type := mkRequest { method : string; stream : result string }.

Section Endpoint.

Variable rt : Runtime.
Variable J : Jose.
Variable env : Env.
(** [JSON.parse(fs.readFileSync(appleKeysPath, 'utf8')).keys] *)
Variable appleKeys : list JSON.

(** <<
    async function verifyAndDecode(jws) {
      if (typeof jws !== 'string') throw new Error('Invalid JWS input');
      const header = decodeProtectedHeader(jws);
      if (header.kid) {
        const jwk = appleKeys.find(k => k.kid === header.kid);
        if (!jwk) throw new Error(`No matching JWK found for kid=${header.kid}`);
        const key = await importJWK(jwk, 'ES256');
        const { payload } = await jwtVerify(jws, key, { algorithms: ['ES256'] });
        return payload;
      }
      if (header.x5c && header.x5c.length > 0) {
        const cert = `-----BEGIN CERTIFICATE-----\n${header.x5c[0]}\n-----END CERTIFICATE-----`;
        const key = await importX509(cert, 'ES256');
        const { payload } = await jwtVerify(jws, key, { algorithms: ['ES256'] });
        return payload;
      }
      throw new Error('No kid or x5c found in JWS header');
    }
    >> *)
Definition verifyAndDecode (jws : JSON) : M JSON :=
  match jws with
  | JStr _ =>
      header <~ call_decodeProtectedHeader J jws ;;
      kid <~ lift (get_strict header "kid") ;;
      if truthy kid then
        jwk <~ lift (find_kid kid appleKeys) ;;
        if negb (truthy jwk) then
          k <~ lift (String_ kid) ;;
          throw (Error ("No matching JWK found for kid=" ++ k))
        else
          key <~ lift (importJWK J jwk "ES256") ;;
          call_jwtVerify J jws key ["ES256"]
      else
        x5c <~ lift (get_strict header "x5c") ;;
        nonempty <~ lift (if truthy x5c then gt_zero rt (get x5c "length") else Ok false) ;;
        if (nonempty : bool) then
          leaf <~ lift (String_ (index0 x5c)) ;;
          let cert := "-----BEGIN CERTIFICATE-----" ++ nl ++ leaf ++ nl ++
                      "-----END CERTIFICATE-----" in
          key <~ lift (importX509 J cert "ES256") ;;
          call_jwtVerify J jws key ["ES256"]
        else throw (Error "No kid or x5c found in JWS header")
  | _ => throw (Error "Invalid JWS input")
  end.

(** [note?.data?.k ? await verifyAndDecode(String(note.data.k)) : null] *)
Definition nested (note : JSON) (k : string) : M JSON :=
  if truthy (get (get note "data") k) then
    data <~ lift (get_strict note "data") ;;
    token <~ lift (get_strict data k) ;;
    jws <~ lift (String_ token) ;;
    verifyAndDecode (JStr jws)
  else ret JNull.

(** The handler; [now] is what the clock reads when [out] is built. *)
Definition handler (now : Z) (req : Request) : list event * Response :=
  if String.eqb (method req) "GET" then ([], Send 200 "ok")
  else if negb (String.eqb (method req) "POST") then ([], Send 405 "method not allowed")
  else
    try_catch
      (rawBody <~ lift (stream req) ;;
       let body := match JSON_parse rt rawBody with
                   | Ok v => v
                   | Throw _ => JObj []
                   end in
       if truthy (get body "signedPayload") then
         let signedPayload := get body "signedPayload" in
         jws <~ lift (String_ signedPayload) ;;
         note <~ verifyAndDecode (JStr jws) ;;
         txnInfo <~ nested note "signedTransactionInfo" ;;
         renInfo <~ nested note "signedRenewalInfo" ;;
         out <~ lift (normalize rt now note txnInfo renInfo) ;;
         forward_out rt env out
       else
         ret (Json 200 (JObj [("received", JBool true); ("body", body)]))).

End Endpoint.
End Webhook.

(* ------------------------------------------------------------------ *)
(** ** The kid-only endpoint *)

Module WebhookKid.

(** The platform has parsed the body: [req.body]. *)
Record Request : Type := mkRequest { method : string; body : JSON }.

Section Endpoint.

Variable rt : Runtime.
Variable J : Jose.
Variable env : Env.
Variable appleKeys : list JSON.

(** <<
    async function verifyAndDecode(jws) {
      const { kid } = decodeProtectedHeader(jws);
      const jwk = appleKeys.find(k => k.kid === kid);
      if (!jwk) throw new Error(`No matching JWK found for kid=${kid}`);
      const key = await importJWK(jwk, 'ES256');
      const { payload } = await jwtVerify(jws, key, { algorithms: ['ES256'] });
      return payload;
    }
    >> *)
Definition verifyAndDecode (jws : JSON) : M JSON :=
  header <~ call_decodeProtectedHeader J jws ;;
  kid <~ lift (get_strict header "kid") ;;
  jwk <~ lift (find_kid kid appleKeys) ;;
  if negb (truthy jwk) then
    k <~ lift (String_ kid) ;;
    throw (Error ("No matching JWK found for kid=" ++ k))
  else
    key <~ lift (importJWK J jwk "ES256") ;;
    call_jwtVerify J jws key ["ES256"].

(** [note?.data?.k ? await verifyAndDecode(note.data.k) : null] *)
Definition nested (note : JSON) (k : string) : M JSON :=
  if truthy (get (get note "data") k) then
    data <~ lift (get_strict note "data") ;;
    token <~ lift (get_strict data k) ;;
    verifyAndDecode token
  else ret JNull.

Definition handler (now : Z) (req : Request) : list event * Response :=
  if String.eqb (method req) "GET" then ([], Send 200 "ok")
  else if negb (String.eqb (method req) "POST") then ([], Send 405 "method not allowed")
  else
    try_catch
      (if truthy (get (body req) "signedPayload") then
         let signedPayload := get (body req) "signedPayload" in
         note <~ verifyAndDecode signedPayload ;;
         txnInfo <~ nested note "signedTransactionInfo" ;;
         renInfo <~ nested note "signedRenewalInfo" ;;
         out <~ lift (normalize rt now note txnInfo renInfo) ;;
         forward_out rt env out
       else
         ret (Json 200 (JObj [("received", JBool true); ("body", body req)]))).

End Endpoint.
End WebhookKid.

(* ------------------------------------------------------------------ *)
(** ** The endpoint on the remote key set *)

Module Assn.

Record Request : Type := mkRequest { method : string; body : JSON }.

Section Endpoint.

Variable rt : Runtime.
Variable J : Jose.
Variable env : Env.

(** [createRemoteJWKSet(new URL('https://apple-public.keys.storekit.itunes.apple.com/keys'))] *)
Definition APPLE_JWKS : Key J :=
  createRemoteJWKSet J "https://apple-public.keys.storekit.itunes.apple.com/keys".

(** <<
    async function verifyAndDecode(jws) {
      const { payload } = await jwtVerify(jws, APPLE_JWKS, { algorithms: ['ES256'] });
      return payload;
    }
    >> *)
Definition verifyAndDecode (jws : JSON) : M JSON :=
  call_jwtVerify J jws APPLE_JWKS ["ES256"].

Definition nested (note : JSON) (k : string) : M JSON :=
  if truthy (get (get note "data") k) then
    data <~ lift (get_strict note "data") ;;
    token <~ lift (get_strict data k) ;;
    verifyAndDecode token
  else ret JNull.

(** <<
    const { signedPayload } = req.body || {};
    if (!signedPayload) return res.status(400).send('missing signedPayload');
    >> *)
Definition handler (now : Z) (req : Request) : list event * Response :=
  if String.eqb (method req) "GET" then ([], Send 200 "ok")
  else if negb (String.eqb (method req) "POST") then ([], Send 405 "method not allowed")
  else
    try_catch
      (let signedPayload := get (js_or (body req) (JObj [])) "signedPayload" in
       if negb (truthy signedPayload) then ret (Send 400 "missing signedPayload")
       else
         note <~ verifyAndDecode signedPayload ;;
         txnInfo <~ nested note "signedTransactionInfo" ;;
         renInfo <~ nested note "signedRenewalInfo" ;;
         out <~ lift (normalize rt now note txnInfo renInfo) ;;
         forward_out rt env out).

End Endpoint.
End Assn.

(* ------------------------------------------------------------------ *)
(** ** api/webhook.js, lines 146-213: the handler alone *)

Module WebhookBare.

Record Request : Type := mkRequest { method : string; body : JSON }.

Section Endpoint.

Variable rt : Runtime.
Variable env : Env.
(** The text calls [verifyAndDecode] and does not define it. *)
Variable verifyAndDecode : JSON -> M JSON.

(** [note?.data?.k ? await verifyAndDecode(note.data.k) : null] *)
Definition nested (note : JSON) (k : string) : M JSON :=
  if truthy (get (get note "data") k) then
    data <~ lift (get_strict note "data") ;;
    token <~ lift (get_strict data k) ;;
    verifyAndDecode token
  else ret JNull.

Definition handler (now : Z) (req : Request) : list event * Response :=
  if String.eqb (method req) "GET" then ([], Send 200 "ok")
  else if negb (String.eqb (method req) "POST") then ([], Send 405 "method not allowed")
  else
    try_catch
      (if truthy (get (body req) "signedPayload") then
         let signedPayload := get (body req) "signedPayload" in
         note <~ verifyAndDecode signedPayload ;;
         txnInfo <~ nested note "signedTransactionInfo" ;;
         renInfo <~ nested note "signedRenewalInfo" ;;
         out <~ lift (normalize rt now note txnInfo renInfo) ;;
         forward_out rt env out
       else
         ret (Json 200 (JObj [("received", JBool true); ("body", body req)]))).

End Endpoint.
End WebhookBare.

(* ------------------------------------------------------------------ *)
(** ** api/webhook.js, lines 214-313: the endpoint on the local key set *)

Module WebhookLocal.

Record Request : Type := mkRequest { method : string; body : JSON }.

Section Endpoint.

Variable rt : Runtime.
Variable J : Jose.
Variable env : Env.
(** jose's [createLocalJWKSet], and the document [apple_keys.json]. *)
Variable createLocalJWKSet : JSON -> Key J.
Variable appleKeys : JSON.

(** [const APPLE_JWKS = createLocalJWKSet(appleKeys);] *)
Definition APPLE_JWKS : Key J := createLocalJWKSet appleKeys.

(** <<
    async function verifyAndDecode(jws) {
      const { payload } = await jwtVerify(jws, APPLE_JWKS, { algorithms: ['ES256'] });
      return payload;
    }
    >> *)
Definition verifyAndDecode (jws : JSON) : M JSON :=
  call_jwtVerify J jws APPLE_JWKS ["ES256"].

Definition nested (note : JSON) (k : string) : M JSON :=
  if truthy (get (get note "data") k) then
    data <~ lift (get_strict note "data") ;;
    token <~ lift (get_strict data k) ;;
    verifyAndDecode token
  else ret JNull.

Definition handler (now : Z) (req : Request) : list event * Response :=
  if String.eqb (method req) "GET" then ([], Send 200 "ok")
  else if negb (String.eqb (method req) "POST") then ([], Send 405 "method not allowed")
  else
    try_catch
      (if truthy (get (body req) "signedPayload") then
         let signedPayload := get (body req) "signedPayload" in
         note <~ verifyAndDecode signedPayload ;;
         txnInfo <~ nested note "signedTransactionInfo" ;;
         renInfo <~ nested note "signedRenewalInfo" ;;
         out <~ lift (normalize rt now note txnInfo renInfo) ;;
         forward_out rt env out
       else
         ret (Json 200 (JObj [("received", JBool true); ("body", body req)]))).

End Endpoint.
End WebhookLocal.

(* ------------------------------------------------------------------ *)
(** ** The error taxonomy and the tables of the specification *)

(** jose's [JWSSignatureVerificationFailed]. *)
Definition JWSSignatureVerificationFailed : exn :=
  mkExn "JWSSignatureVerificationFailed" "signature verification failed".

(** jose's [JWSInvalid] and [JOSEAlgNotAllowed]. *)
Definition JWSInvalid : exn := mkExn "JWSInvalid" "Invalid Compact JWS".
Definition dq : string := String (ascii_of_nat 34) "".
Definition JOSEAlgNotAllowed : exn :=
  mkExn "JOSEAlgNotAllowed"
        (dq ++ "alg" ++ dq ++ " (Algorithm) Header Parameter value not allowed").

(** The four terminal errors as the endpoints raise them. *)
Definition KeyNotFound (kid : string) : exn :=
  Error ("No matching JWK found for kid=" ++ kid).
Definition NoKeyMaterial : exn := Error "No kid or x5c found in JWS header".
Definition SignatureInvalid : exn := JWSSignatureVerificationFailed.
Definition MalformedToken : exn := JWSInvalid.

Definition is_KeyNotFound (e : exn) : bool :=
  String.eqb (exn_name e) "Error" &&
  String.prefix "No matching JWK found for kid=" (exn_message e).

Definition is_Forward (ev : event) : bool :=
  match ev with Forward _ _ _ => true | _ => false end.

Definition is_Verify (ev : event) : bool :=
  match ev with Verify _ _ => true | _ => false end.

(** A Verify event that names the fixed algorithm and nothing else. *)
Definition verifies_ES256_only (ev : event) : bool :=
  match ev with
  | Verify _ algorithms =>
      match algorithms with
      | [a] => String.eqb a "ES256"
      | _ => false
      end
  | _ => true
  end.

(** The PEM text that the x5c path wraps around a leaf certificate. *)
Definition pem (leaf : string) : string :=
  "-----BEGIN CERTIFICATE-----" ++ nl ++ leaf ++ nl ++ "-----END CERTIFICATE-----".

(** The key resolution of the specification: what the header and the key
    set yield, in priority order. *)
Inductive resolution : Type :=
| FromKeySet (jwk : JSON)
| AdHoc (leaf : string)
| FailKeyNotFound (kid : string)
| FailNoKeyMaterial.

Definition carries_kid (kid : string) (jwk : JSON) : bool :=
  strict_equals (get jwk "kid") (JStr kid).

Definition resolveKey (header : JSON) (keys : list JSON) : resolution :=
  match get header "kid" with
  | JStr (String c kid') =>
      match List.find (carries_kid (String c kid')) keys with
      | Some jwk => FromKeySet jwk
      | None => FailKeyNotFound (String c kid')
      end
  | _ =>
      match get header "x5c" with
      | JArr (JStr leaf :: _) => AdHoc leaf
      | _ => FailNoKeyMaterial
      end
  end.

(** Verification once the key is resolved: import the key for ES256 and
    have jose verify under ES256 only, or fail with the resolution's error. *)
Definition verifyWith (J : Jose) (jws : JSON) (r : resolution) : result JSON :=
  match r with
  | FromKeySet jwk =>
      key <- importJWK J jwk "ES256" ;; jwtVerify J jws key ["ES256"]
  | AdHoc leaf =>
      key <- importX509 J (pem leaf) "ES256" ;; jwtVerify J jws key ["ES256"]
  | FailKeyNotFound kid => Throw (KeyNotFound kid)
  | FailNoKeyMaterial => Throw NoKeyMaterial
  end.

(** The resolution of the kid-only endpoint: the key set, by the header's
    kid, whether the header has one or not. *)
Definition resolveKeyByKid (header : JSON) (keys : list JSON) : resolution :=
  match List.find (fun jwk => strict_equals (get jwk "kid") (get header "kid")) keys with
  | Some jwk => FromKeySet jwk
  | None => FailKeyNotFound (match get header "kid" with
                             | JStr kid => kid
                             | _ => "undefined"
                             end)
  end.

(** A nested layer of [note] fails with [e]: the transaction info, or,
    the transaction info being absent or verified, the renewal info. *)
Definition nested_layer_fails (nested : JSON -> string -> M JSON) (note : JSON) (e : exn) : Prop :=
  outcome (nested note "signedTransactionInfo") = Throw e \/
  ((exists txnInfo, outcome (nested note "signedTransactionInfo") = Ok txnInfo) /\
   outcome (nested note "signedRenewalInfo") = Throw e).

(** What a run that cannot pass verification looks like: every
    verification it asks of jose names ES256 alone, it yields no payload,
    and once it has asked for a verification it ends in SignatureInvalid. *)
Definition rejected (run : M JSON) : Prop :=
  forallb verifies_ES256_only (trace run) = true /\
  (forall payload, outcome run <> Ok payload) /\
  (existsb is_Verify (trace run) = true -> outcome run = Throw SignatureInvalid).

(** A computation whose every request for a verification names ES256 alone. *)
Definition asks_ES256_only {A : Type} (c : M A) : Prop :=
  forallb verifies_ES256_only (trace c) = true.

(** A computation that forwards nothing downstream. *)
Definition silent {A : Type} (c : M A) : Prop := existsb is_Forward (trace c) = false.

(** A header whose kid, when there is one, is a string, and whose x5c,
    when there is one, is an array of strings: the types jose declares
    for the two parameters. *)
Definition is_string (v : JSON) : bool :=
  match v with JStr _ => true | _ => false end.

Definition is_object (v : JSON) : bool :=
  match v with JObj _ => true | _ => false end.

Definition typed_header (header : JSON) : bool :=
  is_object header &&
  match get header "kid" with
  | JUndefined | JStr _ => true
  | _ => false
  end &&
  match get header "x5c" with
  | JUndefined => true
  | JArr certs => forallb is_string certs
  | _ => false
  end.




(** The ISO-8601 text of the instant [t] milliseconds after the epoch. *)
Definition iso_of_ms (t : Z) : result JSON :=
  s <- toISOString (Date_ (Some t)) ;; Ok (JStr s).

Definition safe_integer (n : Z) : bool := Z.abs n <=? 2 ^ 53 - 1.

(** The entitlement that goes with a derived product id. *)
Definition entitlements_of (txnInfo productId expiresIso : JSON) : result (list JSON) :=
  if truthy productId then
    original_transaction_id <-
      String_ (js_or (get txnInfo "originalTransactionId") (JStr "")) ;;
    Ok [JObj [("product_id", productId);
              ("original_transaction_id", JStr original_transaction_id);
              ("expires_at", expiresIso)]]
  else Ok [].

(** [s] is what [String(v || '')] makes of the claim value [v]: nothing
    of a falsy value, the decimal numeral of a number, a string itself. *)
Definition coerced (v : JSON) (s : string) : Prop :=
  (truthy v = false -> s = "") /\
  (forall n, v = JNum n -> n <> 0 -> safe_integer n = true -> s = decimal n) /\
  (forall t, v = JStr t -> s = t).

(* ------------------------------------------------------------------ *)
(** ** A run-time and a jose to run the handlers on *)

Module Fixture.

(** The numeric reading of a decimal integer literal; the empty string
    reads as 0, anything else as NaN. *)
Definition readDecimal (s : string) : option Z :=
  if String.eqb s "" then Some 0
  else option_map Z.of_int (NilZero.int_of_string s).

Definition pingText : string := "{" ++ dq ++ "ping" ++ dq ++ ":true}".
Definition notifyText (token : string) : string :=
  "{" ++ dq ++ "signedPayload" ++ dq ++ ":" ++ dq ++ token ++ dq ++ "}".

(** A token as the fixture knows it: what its header and payload decode
    to, the algorithm that made its signature and the key that made it. *)
Record Token : Type := mkToken {
  header : JSON;
  payload : JSON;
  signedWith : string;
  signer : string
}.

Definition leafCert : string := "MIIBsandboxleaf".
Definition jwksUrl : string := "https://apple-public.keys.storekit.itunes.apple.com/keys".

Definition es256 (kid : string) : JSON :=
  JObj [("alg", JStr "ES256"); ("kid", JStr kid)].

Definition txnClaims : JSON :=
  JObj [("productId", JStr "pro_monthly");
        ("expiresDate", JNum 1700000000);
        ("transactionId", JNum 2000000123);
        ("originalTransactionId", JStr "1000000456")].

Definition renClaims : JSON :=
  JObj [("autoRenewStatus", JStr "OFF"); ("autoRenewPreference", JStr "pro_yearly")].

Definition note (type : string) (txn ren : JSON) : JSON :=
  JObj [("notificationType", JStr type);
        ("notificationUUID", JStr "uuid-1");
        ("data", JObj [("environment", JStr "Sandbox");
                       ("signedTransactionInfo", txn);
                       ("signedRenewalInfo", ren)])].

(** The tokens in circulation. *)
Definition tokens : list (string * Token) :=
  [("outer.good",
    mkToken (es256 "k1") (note "SUBSCRIBED" (JStr "txn.good") (JStr "ren.good")) "ES256" "k1");
   ("txn.good", mkToken (es256 "k1") txnClaims "ES256" "k1");
   ("ren.good", mkToken (es256 "k1") renClaims "ES256" "k1");
   ("outer.badtxn",
    mkToken (es256 "k1") (note "DID_RENEW" (JStr "txn.forged") JUndefined) "ES256" "k1");
   ("outer.badren",
    mkToken (es256 "k1") (note "DID_RENEW" (JStr "txn.good") (JStr "txn.forged")) "ES256" "k1");
   ("txn.forged", mkToken (es256 "k1") txnClaims "HS256" "k1");
   ("unknown.kid", mkToken (es256 "k9") txnClaims "ES256" "k9");
   ("forged.unknown", mkToken (es256 "k9") txnClaims "HS256" "k9");
   ("no.kid", mkToken (JObj [("alg", JStr "ES256")]) txnClaims "ES256" "k1");
   ("empty.kid", mkToken (es256 "") txnClaims "ES256" "k1");
   ("sandbox.x5c",
    mkToken (JObj [("alg", JStr "ES256"); ("x5c", JArr [JStr leafCert; JStr "MIIBroot"])])
            txnClaims "ES256" (pem leafCert))].

Fixpoint tokenOf (s : string) (l : list (string * Token)) : option Token :=
  match l with
  | [] => None
  | (name, t) :: rest => if String.eqb s name then Some t else tokenOf s rest
  end.

Definition appleKeys : list JSON :=
  [JObj [("kty", JStr "EC"); ("kid", JStr "k0")];
   JObj [("kty", JStr "EC"); ("kid", JStr "k1")]].

Definition not_a_string : exn := TypeError "Token must be a string".

(** A jose on the tokens above.  A key is named by its kid, by the PEM it
    was imported from, or by the url of the key set that publishes it (the
    remote set publishes k1). *)
Definition jose : Jose :=
  mkJose string
    (fun jws =>
       match jws with
       | JStr s => match tokenOf s tokens with
                   | Some t => Ok (header t)
                   | None => Throw JWSInvalid
                   end
       | _ => Throw not_a_string
       end)
    (fun jwk _ => String_ (get jwk "kid"))
    (fun cert _ => Ok cert)
    (fun url => url)
    (fun jws key algorithms =>
       match jws with
       | JStr s =>
           match tokenOf s tokens with
           | None => Throw JWSInvalid
           | Some t =>
               match get (header t) "alg" with
               | JStr alg =>
                   if negb (existsb (String.eqb alg) algorithms) then Throw JOSEAlgNotAllowed
                   else if String.eqb (signedWith t) alg &&
                           (String.eqb (signer t) key ||
                            (String.eqb key jwksUrl && String.eqb (signer t) "k1"))
                        then Ok (payload t)
                        else Throw JWSSignatureVerificationFailed
               | _ => Throw JWSInvalid
               end
           end
       | _ => Throw not_a_string
       end).

Definition parseTable : list (string * JSON) :=
  [("{}", JObj []);
   (pingText, JObj [("ping", JBool true)]);
   (notifyText "outer.good", JObj [("signedPayload", JStr "outer.good")]);
   (notifyText "outer.badtxn", JObj [("signedPayload", JStr "outer.badtxn")]);
   (notifyText "outer.badren", JObj [("signedPayload", JStr "outer.badren")])].

(** [JSON.parse] on the request texts of the fixture. *)
Definition parse (text : string) : result JSON :=
  match lookup text parseTable with
  | Some v => Ok v
  | None => Throw (mkExn "SyntaxError" "Unexpected token")
  end.

Definition rt : Runtime := mkRuntime readDecimal parse (fun _ _ _ => Ok 200).

Definition env : Env := mkEnv (Some "https://example.bubbleapps.io/hook") None.

Definition clock : Z := 1700000000123.

End Fixture.

(* ------------------------------------------------------------------ *)
(** ** Runs of a handler *)

(** The layers in sequence, as every handler runs them once it holds the
    signed payload: [outer] verifies the notification, [nested] a token
    of its data block. *)
Definition layers (rt : Runtime) (env : Env) (now : Z)
    (outer : M JSON) (nested : JSON -> string -> M JSON) : M Response :=
  note <~ outer ;;
  txnInfo <~ nested note "signedTransactionInfo" ;;
  renInfo <~ nested note "signedRenewalInfo" ;;
  out <~ lift (normalize rt now note txnInfo renInfo) ;;
  forward_out rt env out.

(** How many events of a kind a run has. *)
Definition count (kind : event -> bool) (t : list event) : nat :=
  List.length (List.filter kind t).

Definition is_DecodeHeader (ev : event) : bool :=
  match ev with DecodeHeader _ => true | _ => false end.

(** [process.env.BUBBLE_SECRET ?? ''] *)
Definition secret_of (env : Env) : string :=
  match BUBBLE_SECRET env with Some s => s | None => "" end.

(** The twelve keys of the record [out], in the order of the literal. *)
Definition out_keys : list string :=
  ["now"; "source"; "operation"; "environment"; "notification_uuid"; "type";
   "subtype"; "transaction_id"; "transaction_expires_at"; "products";
   "entitlements"; "app_account_token"].

(** A claim value that [String] prints without calling into an object:
    anything but an array or an object. *)
Definition is_primitive (v : JSON) : bool :=
  match v with
  | JArr _ | JObj _ => false
  | _ => true
  end.


(** A computation that asks jose for one verification at most. *)
Definition frugal {A : Type} (c : M A) : Prop := (count is_Verify (trace c) <= 1)%nat.

(** What the handlers need of a verifier: it forwards nothing, asks for
    one verification at most, and names ES256 alone. *)
Definition well_behaved (c : M JSON) : Prop :=
  silent c /\ frugal c /\ asks_ES256_only c.

(** A run with three verifications at most, each under ES256 alone, and
    one forward at most. *)
Definition within_bounds (run : list event * Response) : Prop :=
  (count is_Verify (fst run) <= 3)%nat /\
  (count is_Forward (fst run) <= 1)%nat /\
  forallb verifies_ES256_only (fst run) = true.

(** Whatever [run] forwards went to the configured url with the
    configured secret, and is the record of a notification that [verify]
    accepted and of its nested layers as [nested] returned them. *)
Definition forwards_verified_only (rt : Runtime) (env : Env) (now : Z)
    (verify : JSON -> M JSON) (nested : JSON -> string -> M JSON)
    (run : list event * Response) : Prop :=
  forall url secret out, In (Forward url secret out) (fst run) ->
    url = BUBBLE_HOOK_URL env /\ secret = secret_of env /\
    exists token note txnInfo renInfo,
      outcome (verify token) = Ok note /\
      outcome (nested note "signedTransactionInfo") = Ok txnInfo /\
      outcome (nested note "signedRenewalInfo") = Ok renInfo /\
      normalize rt now note txnInfo renInfo = Ok out.

(** [run] did [before], then forwarded [out], and answers what [fetch]
    made of it. *)
Definition delivered (rt : Runtime) (env : Env) (before : list event) (out : JSON)
    (run : list event * Response) : Prop :=
  run =
  ((before ++ [Forward (BUBBLE_HOOK_URL env) (secret_of env) out])%list,
   match fetch rt (BUBBLE_HOOK_URL env) (secret_of env) out with
   | Ok status => Json 200 (JObj [("forwardedStatus", JNum status)])
   | Throw e => Send 400 (String_of_exn e)
   end).

(** [run] did [before], forwarded nothing, and answers 400 with the text
    of [e]. *)
Definition refused (before : list event) (e : exn) (run : list event * Response) : Prop :=
  run = (before, Send 400 (String_of_exn e)) /\ existsb is_Forward before = false.

(** [run] delivers the record whenever [outer] and the nested layers
    verify and the record is built. *)
Definition delivers_on_success (rt : Runtime) (env : Env) (now : Z)
    (outer : M JSON) (nested : JSON -> string -> M JSON)
    (run : list event * Response) : Prop :=
  forall note txnInfo renInfo out,
    outcome outer = Ok note ->
    outcome (nested note "signedTransactionInfo") = Ok txnInfo ->
    outcome (nested note "signedRenewalInfo") = Ok renInfo ->
    normalize rt now note txnInfo renInfo = Ok out ->
    delivered rt env
      (trace outer ++ trace (nested note "signedTransactionInfo") ++
       trace (nested note "signedRenewalInfo")) out run.

(** [run] is refused when [outer] fails, after the events of [outer]
    alone, and when every layer verifies and the record cannot be built. *)
Definition refuses_on_failure (rt : Runtime) (now : Z)
    (outer : M JSON) (nested : JSON -> string -> M JSON)
    (run : list event * Response) : Prop :=
  (forall e, outcome outer = Throw e -> refused (trace outer) e run) /\
  (forall note txnInfo renInfo e,
     outcome outer = Ok note ->
     outcome (nested note "signedTransactionInfo") = Ok txnInfo ->
     outcome (nested note "signedRenewalInfo") = Ok renInfo ->
     normalize rt now note txnInfo renInfo = Throw e ->
     refused
       (trace outer ++ trace (nested note "signedTransactionInfo") ++
        trace (nested note "signedRenewalInfo")) e run).

(** How [run] answers a request of method [m]. *)
Definition answers_by_method (m : string) (run : list event * Response) : Prop :=
  (m = "GET" -> run = ([], Send 200 "ok")) /\
  (m <> "GET" -> m <> "POST" -> run = ([], Send 405 "method not allowed")) /\
  (m = "POST" -> status_of (snd run) = 200 \/ status_of (snd run) = 400).

(** A payload that [c] returns is one that jose returned on verifying
    [jws] under ES256 alone, and [c] asked for that verification. *)
Definition genuine (J : Jose) (jws : JSON) (c : M JSON) : Prop :=
  forall payload, outcome c = Ok payload ->
    exists key, jwtVerify J jws key ["ES256"] = Ok payload /\
                In (Verify jws ["ES256"]) (trace c).

(** An event that hands jose a string, or hands jose nothing. *)
Definition hands_jose_a_string (ev : event) : bool :=
  match ev with
  | DecodeHeader jws | Verify jws _ => is_string jws
  | Forward _ _ _ => true
  end.

Definition strings_only {A : Type} (c : M A) : Prop :=
  forallb hands_jose_a_string (trace c) = true.

(** The fixture's [createLocalJWKSet]: the local set holds k1, as the
    remote one does. *)
Definition fixtureLocalJWKSet (doc : JSON) : Key Fixture.jose := Fixture.jwksUrl.

(* ------------------------------------------------------------------ *)
(** * Properties *)

(** ** The scenarios of the specification, run on the fixture *)

Example scenario_subscribed :
  normalize Fixture.rt Fixture.clock
    (JObj [("notificationType", JStr "SUBSCRIBED")])
    (JObj [("productId", JStr "pro_monthly"); ("expiresDate", JNum 1700000000)])
    JNull =
  Ok (JObj
        [("now", JStr "2023-11-14T22:13:20.123Z");
         ("source", JStr "apple-assn");
         ("operation", JStr "purchase");
         ("environment", JStr "");
         ("notification_uuid", JStr "");
         ("type", JStr "SUBSCRIBED");
         ("subtype", JStr "");
         ("transaction_id", JStr "");
         ("transaction_expires_at", JStr "2023-11-14T22:13:20.000Z");
         ("products", JArr [JStr "pro_monthly"]);
         ("entitlements",
          JArr [JObj [("product_id", JStr "pro_monthly");
                      ("original_transaction_id", JStr "");
                      ("expires_at", JStr "2023-11-14T22:13:20.000Z")]]);
         ("app_account_token", JStr "")]).
Proof.
  vm_compute. reflexivity.
Qed.

Example scenario_auto_renew_off :
  mapOperation (JObj [("notificationType", JStr "DID_CHANGE_RENEWAL_STATUS")])
               (JObj [("autoRenewStatus", JStr "OFF")]) = Ok "auto_renew_off" /\
  mapOperation (JObj [("notificationType", JStr "DID_CHANGE_RENEWAL_STATUS")])
               (JObj [("autoRenewStatus", JNum 0)]) = Ok "auto_renew_on".
Proof.
  split; reflexivity.
Qed.

Example scenario_type_code_not_a_string :
  mapOperation (JObj [("notificationType", JNum 7)]) JNull =
  Throw (TypeError "(intermediate value).toUpperCase is not a function").
Proof.
  reflexivity.
Qed.

Example scenario_timestamps :
  msToIso Fixture.rt (JNum 1700000000) = Ok (JStr "2023-11-14T22:13:20.000Z") /\
  msToIso Fixture.rt (JNum 1700000000000) = Ok (JStr "2023-11-14T22:13:20.000Z") /\
  msToIso Fixture.rt (JNum 0) = Ok JNull /\
  msToIso Fixture.rt JUndefined = Ok JNull /\
  msToIso Fixture.rt (JStr "1700000000") = Ok (JStr "2023-11-14T22:13:20.000Z") /\
  msToIso Fixture.rt (JNum (10 ^ 16)) = Throw invalid_time.
Proof.
  repeat split; vm_compute; reflexivity.
Qed.

Example scenario_all_layers_verify :
  let run := Webhook.handler Fixture.rt Fixture.jose Fixture.env Fixture.appleKeys
               Fixture.clock
               (Webhook.mkRequest "POST" (Ok (Fixture.notifyText "outer.good"))) in
  snd run = Json 200 (JObj [("forwardedStatus", JNum 200)]) /\
  List.map (fun ev => match ev with
                      | DecodeHeader jws => ("decode", jws)
                      | Verify jws _ => ("verify", jws)
                      | Forward _ _ out => ("forward", get out "operation")
                      end) (fst run) =
    [("decode", JStr "outer.good"); ("verify", JStr "outer.good");
     ("decode", JStr "txn.good"); ("verify", JStr "txn.good");
     ("decode", JStr "ren.good"); ("verify", JStr "ren.good");
     ("forward", JStr "purchase")].
Proof.
  vm_compute. split; reflexivity.
Qed.

Example scenario_methods :
  Webhook.handler Fixture.rt Fixture.jose Fixture.env Fixture.appleKeys Fixture.clock
    (Webhook.mkRequest "GET" (Ok "")) = ([], Send 200 "ok") /\
  Webhook.handler Fixture.rt Fixture.jose Fixture.env Fixture.appleKeys Fixture.clock
    (Webhook.mkRequest "PUT" (Ok "")) = ([], Send 405 "method not allowed").
Proof.
  split; reflexivity.
Qed.

(** ** Case conversion *)







(** ** Timestamps *)

Lemma msToIso_number (rt : Runtime) (v : Z) :
  v <> 0 ->
  msToIso rt (JNum v) = iso_of_ms (if v >? 10 ^ 12 then v else v * 1000).
Proof.
  intros Hv. unfold msToIso, iso_of_ms, bind_result.
  assert (Ht : truthy (JNum v) = true).
  { simpl. apply negb_true_iff, Z.eqb_neq, Hv. }
  rewrite Ht. cbn [negb Number_].
  destruct (toISOString _); reflexivity.
Qed.

Lemma msToIso_falsy (rt : Runtime) (ms : JSON) :
  truthy ms = false -> msToIso rt ms = Ok JNull.
Proof.
  intros H. unfold msToIso. rewrite H. reflexivity.
Qed.

(** C6, as the code has it.  A non-zero numeric timestamp is taken as
    milliseconds when it is above 10^12 and as seconds otherwise (10^12
    itself is seconds); so a count of seconds between 10^9 and 10^12 and
    the same instant counted in milliseconds give the same text, as
    1700000000 and 1700000000000 do. *)
Theorem msToIso_seconds_or_milliseconds (rt : Runtime) (v : Z) :
  v <> 0 ->
  (10 ^ 12 < v -> msToIso rt (JNum v) = iso_of_ms v) /\
  (v <= 10 ^ 12 -> msToIso rt (JNum v) = iso_of_ms (1000 * v)) /\
  (10 ^ 9 < v <= 10 ^ 12 -> msToIso rt (JNum (1000 * v)) = msToIso rt (JNum v)) /\
  msToIso rt (JNum 1700000000) = Ok (JStr "2023-11-14T22:13:20.000Z") /\
  msToIso rt (JNum 1700000000000) = Ok (JStr "2023-11-14T22:13:20.000Z").
Proof.
  intros Hv.
  assert (Hms : forall w, 10 ^ 12 < w -> msToIso rt (JNum w) = iso_of_ms w).
  { intros w Hw. rewrite msToIso_number by lia.
    replace (w >? 10 ^ 12) with true; [reflexivity |].
    symmetry. rewrite Z.gtb_ltb. apply Z.ltb_lt, Hw. }
  assert (Hs : forall w, w <> 0 -> w <= 10 ^ 12 ->
                         msToIso rt (JNum w) = iso_of_ms (1000 * w)).
  { intros w Hw0 Hw. rewrite msToIso_number by exact Hw0.
    replace (w >? 10 ^ 12) with false; [rewrite Z.mul_comm; reflexivity |].
    symmetry. rewrite Z.gtb_ltb. apply Z.ltb_ge, Hw. }
  split; [| split; [| split; [| split]]].
  - apply Hms.
  - apply Hs, Hv.
  - intros [Hlo Hhi]. rewrite Hms by lia. rewrite Hs by lia. reflexivity.
  - rewrite Hs by lia. vm_compute. reflexivity.
  - rewrite Hms by lia. vm_compute. reflexivity.
Qed.

Lemma msToIso_seconds_or_milliseconds_witness :
  msToIso Fixture.rt (JNum 1700000000000) = iso_of_ms 1700000000000 /\
  msToIso Fixture.rt (JNum 1700000000) = iso_of_ms 1700000000000 /\
  msToIso Fixture.rt (JNum 1700000000000) = msToIso Fixture.rt (JNum 1700000000).
Proof.
  split; [| split].
  - apply (msToIso_seconds_or_milliseconds Fixture.rt 1700000000000); lia.
  - apply (msToIso_seconds_or_milliseconds Fixture.rt 1700000000); lia.
  - apply (msToIso_seconds_or_milliseconds Fixture.rt 1700000000); lia.
Defined.

(** C6, as the claim words it, fails at the threshold: 10^12 is read as
    seconds, not as milliseconds. *)
Lemma msToIso_threshold_counterexample :
  msToIso Fixture.rt (JNum (10 ^ 12)) = Ok (JStr "+033658-09-27T01:46:40.000Z") /\
  iso_of_ms (10 ^ 12) = Ok (JStr "2001-09-09T01:46:40.000Z") /\
  msToIso Fixture.rt (JNum (10 ^ 12)) <> iso_of_ms (10 ^ 12).
Proof.
  split; [vm_compute; reflexivity | split; [vm_compute; reflexivity |]].
  vm_compute. discriminate.
Qed.

(** ** The record [out] *)

Lemma bind_result_Ok {A B : Type} (c : result A) (k : A -> result B) (b : B) :
  bind_result c k = Ok b -> exists a, c = Ok a /\ k a = Ok b.
Proof.
  destruct c as [a | e]; simpl; intros H.
  - exists a. split; [reflexivity | exact H].
  - discriminate.
Qed.

(** What [out] is whenever it is built. *)
Lemma normalize_Ok (rt : Runtime) (now : Z) (note txnInfo renInfo out : JSON) :
  normalize rt now note txnInfo renInfo = Ok out ->
  exists expiresIso operation nowIso transaction_id entitlements,
    msToIso rt (get txnInfo "expiresDate") = Ok expiresIso /\
    mapOperation note renInfo = Ok operation /\
    toISOString (Date_ (Some now)) = Ok nowIso /\
    String_ (js_or (get txnInfo "transactionId") (JStr "")) = Ok transaction_id /\
    entitlements_of txnInfo (productId_of txnInfo renInfo) expiresIso = Ok entitlements /\
    out = JObj
        [("now", JStr nowIso);
         ("source", JStr "apple-assn");
         ("operation", JStr operation);
         ("environment", js_or (get (get note "data") "environment") (JStr ""));
         ("notification_uuid", js_or (get note "notificationUUID") (JStr ""));
         ("type", js_or (get note "notificationType") (JStr ""));
         ("subtype", js_or (get note "subtype") (JStr ""));
         ("transaction_id", JStr transaction_id);
         ("transaction_expires_at", expiresIso);
         ("products", JArr (if truthy (productId_of txnInfo renInfo)
                            then [productId_of txnInfo renInfo] else []));
         ("entitlements", JArr entitlements);
         ("app_account_token",
          js_or (js_or (get txnInfo "appAccountToken") (get renInfo "appAccountToken"))
                (JStr ""))].
Proof.
  unfold normalize. intros H.
  apply bind_result_Ok in H. destruct H as (expiresIso & H1 & H).
  apply bind_result_Ok in H. destruct H as (operation & H2 & H).
  apply bind_result_Ok in H. destruct H as (nowIso & H3 & H).
  apply bind_result_Ok in H. destruct H as (tid & H4 & H).
  apply bind_result_Ok in H. destruct H as (ents & H5 & H).
  exists expiresIso, operation, nowIso, tid, ents.
  repeat (split; [assumption |]).
  injection H as <-. reflexivity.
Qed.

Lemma get_out_other (k : string) (a b : JSON) (rest : list (string * JSON)) :
  k <> "now" -> get (JObj (("now", a) :: rest)) k = get (JObj (("now", b) :: rest)) k.
Proof.
  intros Hk. simpl.
  destruct (String.eqb k "now") eqn:E; [| reflexivity].
  apply String.eqb_eq in E. contradiction.
Qed.

Lemma toISOString_valid (t : Z) : exists s, toISOString (Some t) = Ok s.
Proof.
  unfold toISOString. destruct (civil_from_days (t / msPerDay)) as [[y m] d].
  eexists. reflexivity.
Qed.

Lemma clock_reading_prints (now : Z) :
  Z.abs now <= 8640000000000000 -> exists s, toISOString (Date_ (Some now)) = Ok s.
Proof.
  intros H. unfold Date_.
  replace (Z.abs now <=? 8640000000000000) with true by (symmetry; apply Z.leb_le, H).
  apply toISOString_valid.
Qed.

(** C5, as the code has it.  The record depends on the clock through its
    field now and through nothing else: for the same decoded layers, two
    runs at any two readings of the clock either both build a record, and
    the two records agree on every field other than now, or both fail
    with the same error. *)
Theorem normalize_same_but_now (rt : Runtime) (now1 now2 : Z) (note txnInfo renInfo : JSON) :
  Z.abs now1 <= 8640000000000000 ->
  Z.abs now2 <= 8640000000000000 ->
  match normalize rt now1 note txnInfo renInfo, normalize rt now2 note txnInfo renInfo with
  | Ok out1, Ok out2 => forall k, k <> "now" -> get out1 k = get out2 k
  | Throw e1, Throw e2 => e1 = e2
  | _, _ => False
  end.
Proof.
  intros H1 H2.
  destruct (clock_reading_prints now1 H1) as [s1 E1].
  destruct (clock_reading_prints now2 H2) as [s2 E2].
  unfold normalize. rewrite E1, E2.
  destruct (msToIso rt (get txnInfo "expiresDate")) as [expiresIso |]; cbn [bind_result];
    [| reflexivity].
  destruct (mapOperation note renInfo) as [operation |]; cbn [bind_result];
    [| reflexivity].
  destruct (String_ (js_or (get txnInfo "transactionId") (JStr ""))) as [tid |];
    cbn [bind_result]; [| reflexivity].
  match goal with
  | |- context [bind_result ?c _] => destruct c as [ents |]
  end; cbn [bind_result]; [| reflexivity].
  intros k Hk. apply get_out_other, Hk.
Qed.

Lemma normalize_same_but_now_witness :
  match normalize Fixture.rt 1700000000123 (Fixture.note "SUBSCRIBED" JNull JNull)
                  Fixture.txnClaims Fixture.renClaims,
        normalize Fixture.rt 1700000000124 (Fixture.note "SUBSCRIBED" JNull JNull)
                  Fixture.txnClaims Fixture.renClaims with
  | Ok out1, Ok out2 => forall k, k <> "now" -> get out1 k = get out2 k
  | Throw e1, Throw e2 => e1 = e2
  | _, _ => False
  end.
Proof.
  apply (normalize_same_but_now Fixture.rt 1700000000123 1700000000124); simpl; lia.
Defined.

(** C5, as the claim words it, fails: the same decoded layers normalised
    at two readings of the clock give two different records. *)
Lemma normalize_clock_counterexample :
  normalize Fixture.rt 1700000000123 (Fixture.note "SUBSCRIBED" JNull JNull)
            Fixture.txnClaims Fixture.renClaims <>
  normalize Fixture.rt 1700000000124 (Fixture.note "SUBSCRIBED" JNull JNull)
            Fixture.txnClaims Fixture.renClaims.
Proof.
  vm_compute. intros H. discriminate H.
Qed.

(** C8. When the transaction info has no expiresDate (or there is no
    transaction info), or the expiresDate is null or the number 0,
    msToIso gives null, and the record carries null, not the text of the
    epoch, as transaction_expires_at. *)
Theorem expiry_absent_or_zero_is_null
    (rt : Runtime) (now : Z) (note txnInfo renInfo : JSON) :
  get txnInfo "expiresDate" = JUndefined \/
  get txnInfo "expiresDate" = JNull \/
  get txnInfo "expiresDate" = JNum 0 ->
  msToIso rt (get txnInfo "expiresDate") = Ok JNull /\
  forall out, normalize rt now note txnInfo renInfo = Ok out ->
    get out "transaction_expires_at" = JNull /\
    Ok (get out "transaction_expires_at") <> iso_of_ms 0.
Proof.
  intros Habsent.
  assert (Hnull : msToIso rt (get txnInfo "expiresDate") = Ok JNull).
  { apply msToIso_falsy. destruct Habsent as [-> | [-> | ->]]; reflexivity. }
  split; [exact Hnull |].
  intros out Hout.
  apply normalize_Ok in Hout.
  destruct Hout as (expiresIso & operation & nowIso & tid & ents &
                    Hexp & _ & _ & _ & _ & ->).
  rewrite Hnull in Hexp. injection Hexp as <-.
  split; [reflexivity |].
  vm_compute. discriminate.
Qed.

Lemma expiry_absent_or_zero_is_null_witness :
  msToIso Fixture.rt (get JNull "expiresDate") = Ok JNull /\
  msToIso Fixture.rt (get (JObj [("expiresDate", JNum 0)]) "expiresDate") = Ok JNull /\
  exists out,
    normalize Fixture.rt Fixture.clock (Fixture.note "EXPIRED" JNull JNull)
              (JObj [("productId", JStr "pro_monthly"); ("expiresDate", JNum 0)]) JNull
    = Ok out /\
    get out "transaction_expires_at" = JNull.
Proof.
  split; [| split].
  - apply (expiry_absent_or_zero_is_null Fixture.rt Fixture.clock JNull JNull JNull).
    left. reflexivity.
  - apply (expiry_absent_or_zero_is_null Fixture.rt Fixture.clock JNull
             (JObj [("expiresDate", JNum 0)]) JNull).
    right. right. reflexivity.
  - eexists. split; [vm_compute; reflexivity |].
    eapply (expiry_absent_or_zero_is_null Fixture.rt Fixture.clock
              (Fixture.note "EXPIRED" JNull JNull)
              (JObj [("productId", JStr "pro_monthly"); ("expiresDate", JNum 0)]) JNull).
    + right. right. reflexivity.
    + vm_compute. reflexivity.
Defined.

Lemma productId_of_falsy (txnInfo renInfo : JSON) :
  truthy (productId_of txnInfo renInfo) = false -> productId_of txnInfo renInfo = JStr "".
Proof.
  unfold productId_of, js_or.
  destruct (truthy (get txnInfo "productId")) eqn:E1;
    [rewrite E1; intros H; rewrite E1 in H; discriminate |].
  destruct (truthy (get renInfo "autoRenewPreference")) eqn:E2;
    [intros H; rewrite E2 in H; discriminate | reflexivity].
Qed.

(** C9. The derived product id is the transaction info's productId when
    that is present (truthy), else the renewal info's autoRenewPreference
    when that is present, else the empty string; and in the record the
    lists products and entitlements have exactly one entry each, for that
    product id, when the derived id is not empty, and no entry otherwise. *)
Theorem product_lists_follow_product_id
    (rt : Runtime) (now : Z) (note txnInfo renInfo out : JSON) :
  normalize rt now note txnInfo renInfo = Ok out ->
  let productId := productId_of txnInfo renInfo in
  productId =
    (if truthy (get txnInfo "productId") then get txnInfo "productId"
     else if truthy (get renInfo "autoRenewPreference")
          then get renInfo "autoRenewPreference"
          else JStr "") /\
  (truthy productId = true ->
     get out "products" = JArr [productId] /\
     exists original_transaction_id,
       get out "entitlements" =
         JArr [JObj [("product_id", productId);
                     ("original_transaction_id", JStr original_transaction_id);
                     ("expires_at", get out "transaction_expires_at")]]) /\
  (truthy productId = false ->
     productId = JStr "" /\
     get out "products" = JArr [] /\
     get out "entitlements" = JArr []).
Proof.
  intros Hout productId.
  apply normalize_Ok in Hout.
  destruct Hout as (expiresIso & operation & nowIso & tid & ents &
                    _ & _ & _ & _ & Hents & ->).
  fold productId in Hents |- *.
  split; [| split].
  - unfold productId, productId_of, js_or.
    destruct (truthy (get txnInfo "productId")) eqn:E1.
    + rewrite E1. reflexivity.
    + destruct (truthy (get renInfo "autoRenewPreference")) eqn:E2; reflexivity.
  - intros Hp. unfold entitlements_of in Hents. rewrite Hp in Hents.
    apply bind_result_Ok in Hents. destruct Hents as (otid & _ & Hents).
    injection Hents as <-.
    cbn [get lookup String.eqb Ascii.eqb Bool.eqb]. rewrite Hp.
    split; [reflexivity |]. exists otid. reflexivity.
  - intros Hp. unfold entitlements_of in Hents. rewrite Hp in Hents.
    injection Hents as <-.
    cbn [get lookup String.eqb Ascii.eqb Bool.eqb]. rewrite Hp.
    split; [apply productId_of_falsy, Hp |]. split; reflexivity.
Qed.

Lemma product_lists_follow_product_id_witness :
  exists out,
    normalize Fixture.rt Fixture.clock (Fixture.note "SUBSCRIBED" JNull JNull)
              Fixture.txnClaims Fixture.renClaims = Ok out /\
    get out "products" = JArr [JStr "pro_monthly"].
Proof.
  eexists. split; [vm_compute; reflexivity |].
  exact (proj1 (proj1 (proj2
           (product_lists_follow_product_id Fixture.rt Fixture.clock
              (Fixture.note "SUBSCRIBED" JNull JNull)
              Fixture.txnClaims Fixture.renClaims _ eq_refl)) eq_refl)).
Defined.

(** ** Identifiers *)

(** [decimal] writes the decimal numeral: reading it gives the number back. *)
Lemma decimal_reads_back (n : Z) :
  option_map Z.of_int (NilZero.int_of_string (decimal n)) = Some n.
Proof.
  unfold decimal.
  destruct n as [| p | p].
  - reflexivity.
  - rewrite NilZero.isi.
    + simpl option_map. f_equal. apply (DecimalZ.of_to (Zpos p)).
    + simpl. intros [= H]. revert H. apply DecimalPos.Unsigned.to_uint_nonnil.
    + discriminate.
  - rewrite NilZero.isi.
    + simpl option_map. f_equal. apply (DecimalZ.of_to (Zneg p)).
    + discriminate.
    + simpl. intros [= H]. revert H. apply DecimalPos.Unsigned.to_uint_nonnil.
Qed.

Lemma String_or_empty (v : JSON) (s : string) :
  String_ (js_or v (JStr "")) = Ok s -> coerced v s.
Proof.
  unfold coerced, js_or. intros H. split; [| split].
  - intros Hf. rewrite Hf in H. injection H as <-. reflexivity.
  - intros n -> Hn _. simpl in H.
    replace (n =? 0) with false in H by (symmetry; apply Z.eqb_neq, Hn).
    simpl in H. injection H as <-. reflexivity.
  - intros t ->. destruct t; simpl in H; injection H as <-; reflexivity.
Qed.

(** C10. In the record, transaction_id is a string, and so is the
    original_transaction_id of every entitlement: the empty string for an
    absent or falsy claim, the decimal numeral of a numeric claim, the
    claim itself when it is a string. *)
Theorem ids_are_strings
    (rt : Runtime) (now : Z) (note txnInfo renInfo out : JSON) :
  normalize rt now note txnInfo renInfo = Ok out ->
  (exists s, get out "transaction_id" = JStr s /\
             coerced (get txnInfo "transactionId") s) /\
  (exists entitlements,
     get out "entitlements" = JArr entitlements /\
     forall e, In e entitlements ->
       exists s, get e "original_transaction_id" = JStr s /\
                 coerced (get txnInfo "originalTransactionId") s).
Proof.
  intros Hout.
  apply normalize_Ok in Hout.
  destruct Hout as (expiresIso & operation & nowIso & tid & ents &
                    _ & _ & _ & Htid & Hents & ->).
  split.
  - exists tid. split; [reflexivity | apply String_or_empty, Htid].
  - exists ents. split; [reflexivity |].
    unfold entitlements_of in Hents.
    destruct (truthy (productId_of txnInfo renInfo)).
    + apply bind_result_Ok in Hents. destruct Hents as (otid & Hotid & Hents).
      injection Hents as <-.
      intros e [<- | []]. exists otid.
      split; [reflexivity | apply String_or_empty, Hotid].
    + injection Hents as <-. intros e [].
Qed.

Lemma ids_are_strings_witness :
  exists out,
    normalize Fixture.rt Fixture.clock (Fixture.note "SUBSCRIBED" JNull JNull)
              Fixture.txnClaims Fixture.renClaims = Ok out /\
    get out "transaction_id" = JStr "2000000123" /\
    exists s, get out "transaction_id" = JStr s /\
              coerced (get Fixture.txnClaims "transactionId") s.
Proof.
  eexists. split; [vm_compute; reflexivity |].
  split; [vm_compute; reflexivity |].
  exact (proj1 (ids_are_strings Fixture.rt Fixture.clock
                  (Fixture.note "SUBSCRIBED" JNull JNull)
                  Fixture.txnClaims Fixture.renClaims _ eq_refl)).
Defined.

(** ** The monad of awaited computations *)

Lemma outcome_bind {A B : Type} (c : M A) (k : A -> M B) :
  outcome (bind c k) =
  match outcome c with
  | Ok a => outcome (k a)
  | Throw e => Throw e
  end.
Proof.
  destruct c as [t [a | e]]; simpl; [| reflexivity].
  destruct (k a); reflexivity.
Qed.

Lemma trace_bind {A B : Type} (c : M A) (k : A -> M B) :
  trace (bind c k) =
  (trace c ++ match outcome c with
              | Ok a => trace (k a)
              | Throw _ => []
              end)%list.
Proof.
  destruct c as [t [a | e]]; simpl.
  - destruct (k a); reflexivity.
  - rewrite app_nil_r. reflexivity.
Qed.

Lemma bind_lift_Ok {A B : Type} (a : A) (k : A -> M B) : bind (lift (Ok a)) k = k a.
Proof.
  unfold bind, lift. destruct (k a); reflexivity.
Qed.

Lemma bind_lift_Throw {A B : Type} (e : exn) (k : A -> M B) :
  bind (lift (Throw e)) k = ([], Throw e).
Proof.
  reflexivity.
Qed.

Lemma bind_ret {A B : Type} (a : A) (k : A -> M B) : bind (ret a) k = k a.
Proof.
  apply bind_lift_Ok.
Qed.

Lemma bind_emit {B : Type} (ev : event) (k : unit -> M B) :
  bind (emit ev) k = (ev :: trace (k tt), outcome (k tt)).
Proof.
  unfold bind, emit. destruct (k tt); reflexivity.
Qed.

Lemma outcome_lift {A : Type} (r : result A) : outcome (lift r) = r.
Proof.
  reflexivity.
Qed.

Lemma outcome_call_jwtVerify (J : Jose) (jws : JSON) (key : Key J) (algs : list string) :
  outcome (call_jwtVerify J jws key algs) = jwtVerify J jws key algs.
Proof.
  unfold call_jwtVerify. rewrite bind_emit. reflexivity.
Qed.

Lemma outcome_import_verify (J : Jose) (imported : result (Key J)) (jws : JSON) :
  outcome (key <~ lift imported ;; call_jwtVerify J jws key ["ES256"]) =
  (key <- imported ;; jwtVerify J jws key ["ES256"]).
Proof.
  destruct imported as [key | e].
  - rewrite bind_lift_Ok. apply outcome_call_jwtVerify.
  - reflexivity.
Qed.

Lemma outcome_call_decodeProtectedHeader (J : Jose) (jws : JSON) :
  outcome (call_decodeProtectedHeader J jws) = decodeProtectedHeader J jws.
Proof.
  unfold call_decodeProtectedHeader. rewrite bind_emit. reflexivity.
Qed.

Lemma outcome_throw {A : Type} (e : exn) : outcome (@throw A e) = Throw e.
Proof.
  reflexivity.
Qed.

Lemma bind_ext {A B : Type} (c : M A) (k k' : A -> M B) :
  (forall a, outcome c = Ok a -> k a = k' a) -> bind c k = bind c k'.
Proof.
  destruct c as [t [a | e]]; simpl; intros H; [| reflexivity].
  rewrite (H a eq_refl). reflexivity.
Qed.

(** ** Key resolution *)

Lemma find_kid_objects (kid : JSON) (keys : list JSON) :
  forallb is_object keys = true ->
  find_kid kid keys =
  Ok (match List.find (fun jwk => strict_equals (get jwk "kid") kid) keys with
      | Some jwk => jwk
      | None => JUndefined
      end).
Proof.
  induction keys as [| k keys IH]; simpl; intros H.
  - reflexivity.
  - apply andb_true_iff in H. destruct H as [Hk Hks].
    destruct k; try discriminate. simpl.
    destruct (strict_equals _ kid); [reflexivity | apply IH, Hks].
Qed.

Lemma find_is_object (f : JSON -> bool) (keys : list JSON) (jwk : JSON) :
  forallb is_object keys = true -> List.find f keys = Some jwk -> truthy jwk = true.
Proof.
  intros Hall Hfind. apply find_some in Hfind. destruct Hfind as [Hin _].
  rewrite forallb_forall in Hall. specialize (Hall _ Hin).
  destruct jwk; try discriminate. reflexivity.
Qed.

Lemma typed_header_inv (hdr : JSON) :
  typed_header hdr = true ->
  get_strict hdr "kid" = Ok (get hdr "kid") /\
  get_strict hdr "x5c" = Ok (get hdr "x5c") /\
  (get hdr "kid" = JUndefined \/ exists kid, get hdr "kid" = JStr kid) /\
  (get hdr "x5c" = JUndefined \/
   exists certs, get hdr "x5c" = JArr certs /\ forallb is_string certs = true).
Proof.
  unfold typed_header. intros H.
  apply andb_true_iff in H. destruct H as [H Hx5c].
  apply andb_true_iff in H. destruct H as [Hobj Hkid].
  destruct hdr; try discriminate.
  split; [reflexivity | split; [reflexivity | split]].
  - destruct (get (JObj props) "kid"); try discriminate; [left | right; eexists]; reflexivity.
  - destruct (get (JObj props) "x5c"); try discriminate.
    + left. reflexivity.
    + right. eexists. split; [reflexivity | exact Hx5c].
Qed.


Lemma pem_text (leaf : string) :
  "-----BEGIN CERTIFICATE-----" ++ nl ++ leaf ++ nl ++ "-----END CERTIFICATE-----" = pem leaf.
Proof.
  reflexivity.
Qed.

Lemma webhook_verify_outcome
    (rt : Runtime) (J : Jose) (keys : list JSON) (s : string) (hdr : JSON) :
  decodeProtectedHeader J (JStr s) = Ok hdr ->
  typed_header hdr = true ->
  forallb is_object keys = true ->
  outcome (Webhook.verifyAndDecode rt J keys (JStr s)) =
  verifyWith J (JStr s) (resolveKey hdr keys).
Proof.
  intros Hdec Htyped Hkeys.
  destruct (typed_header_inv hdr Htyped) as (Hk & Hx & Hkid & Hx5c).
  unfold Webhook.verifyAndDecode.
  rewrite outcome_bind, outcome_call_decodeProtectedHeader, Hdec.
  rewrite outcome_bind, outcome_lift, Hk.
  unfold resolveKey.
  assert (Hcert : outcome
     (x5c <~ lift (get_strict hdr "x5c") ;;
      nonempty <~ lift (if truthy x5c then gt_zero rt (get x5c "length") else Ok false) ;;
      if (nonempty : bool) then
        leaf <~ lift (String_ (index0 x5c)) ;;
        key <~ lift (importX509 J ("-----BEGIN CERTIFICATE-----" ++ nl ++ leaf ++ nl ++
                      "-----END CERTIFICATE-----") "ES256") ;;
        call_jwtVerify J (JStr s) key ["ES256"]
      else throw (Error "No kid or x5c found in JWS header")) =
     verifyWith J (JStr s)
       match get hdr "x5c" with
       | JArr (JStr leaf :: _) => AdHoc leaf
       | _ => FailNoKeyMaterial
       end).
  { rewrite outcome_bind, outcome_lift, Hx.
    destruct Hx5c as [-> | (certs & -> & Hcerts)].
    - reflexivity.
    - destruct certs as [| c certs].
      + reflexivity.
      + simpl in Hcerts. apply andb_true_iff in Hcerts. destruct Hcerts as [Hc _].
        destruct c; try discriminate.
        rewrite outcome_bind, outcome_lift.
        cbn [truthy get String.eqb Ascii.eqb Bool.eqb gt_zero Number_ bind_result].
        replace (0 <? Z.of_nat (List.length (JStr s0 :: certs))) with true
          by (symmetry; apply Z.ltb_lt; simpl List.length; lia).
        rewrite outcome_bind, outcome_lift.
        cbn [index0 String_]. rewrite pem_text.
        apply outcome_import_verify. }
  destruct Hkid as [-> | [kid ->]].
  - cbn [truthy]. exact Hcert.
  - destruct kid as [| c kid'].
    + cbn [truthy String.eqb negb]. exact Hcert.
    + cbn [truthy String.eqb negb].
      rewrite outcome_bind, outcome_lift, (find_kid_objects _ _ Hkeys).
      unfold carries_kid.
      destruct (find _ keys) as [jwk |] eqn:Hfind.
      * rewrite (find_is_object _ _ _ Hkeys Hfind). cbn [negb].
        apply outcome_import_verify.
      * cbn [truthy negb]. rewrite outcome_bind, outcome_lift. reflexivity.
Qed.

Lemma webhook_verify_ignores_keys
    (rt : Runtime) (J : Jose) (keys keys' : list JSON) (s : string) (hdr : JSON) :
  decodeProtectedHeader J (JStr s) = Ok hdr ->
  truthy (get hdr "kid") = false ->
  Webhook.verifyAndDecode rt J keys' (JStr s) = Webhook.verifyAndDecode rt J keys (JStr s).
Proof.
  intros Hdec Hfalsy.
  unfold Webhook.verifyAndDecode.
  apply bind_ext. intros header Hheader.
  rewrite outcome_call_decodeProtectedHeader, Hdec in Hheader. injection Hheader as <-.
  apply bind_ext. intros kid Hkid.
  rewrite outcome_lift in Hkid.
  assert (kid = get hdr "kid") as ->.
  { destruct hdr; simpl in Hkid; try discriminate; injection Hkid as <-; reflexivity. }
  rewrite Hfalsy. reflexivity.
Qed.

Lemma webhookKid_verify_outcome
    (J : Jose) (keys : list JSON) (jws : JSON) (hdr : JSON) :
  decodeProtectedHeader J jws = Ok hdr ->
  typed_header hdr = true ->
  forallb is_object keys = true ->
  outcome (WebhookKid.verifyAndDecode J keys jws) =
  verifyWith J jws (resolveKeyByKid hdr keys).
Proof.
  intros Hdec Htyped Hkeys.
  destruct (typed_header_inv hdr Htyped) as (Hk & _ & Hkid & _).
  unfold WebhookKid.verifyAndDecode, resolveKeyByKid.
  rewrite outcome_bind, outcome_call_decodeProtectedHeader, Hdec.
  rewrite outcome_bind, outcome_lift, Hk.
  rewrite outcome_bind, outcome_lift, (find_kid_objects _ _ Hkeys).
  destruct (find _ keys) as [jwk |] eqn:Hfind.
  - rewrite (find_is_object _ _ _ Hkeys Hfind). cbn [negb].
    apply outcome_import_verify.
  - cbn [truthy negb]. rewrite outcome_bind, outcome_lift.
    destruct Hkid as [-> | [kid ->]]; reflexivity.
Qed.

(** C1, as the code has it.  In api/webhook.js key resolution follows the
    priority order of the specification: a non-empty kid is looked up in
    the key set and verification fails with KeyNotFound when no key
    carries it; without one, a non-empty x5c gives an ad-hoc key from its
    leaf certificate, whatever the key set holds; with neither,
    verification fails with NoKeyMaterial.  The kid-only endpoint has no
    certificate path: it looks the header's kid up whether there is one or
    not, and fails with KeyNotFound when no key matches. *)
Theorem key_resolution_priority
    (rt : Runtime) (J : Jose) (keys : list JSON) (s : string) (hdr : JSON) :
  decodeProtectedHeader J (JStr s) = Ok hdr ->
  typed_header hdr = true ->
  forallb is_object keys = true ->
  outcome (Webhook.verifyAndDecode rt J keys (JStr s)) =
    verifyWith J (JStr s) (resolveKey hdr keys) /\
  (truthy (get hdr "kid") = false ->
   forall keys', Webhook.verifyAndDecode rt J keys' (JStr s) =
                 Webhook.verifyAndDecode rt J keys (JStr s)) /\
  outcome (WebhookKid.verifyAndDecode J keys (JStr s)) =
    verifyWith J (JStr s) (resolveKeyByKid hdr keys).
Proof.
  intros Hdec Htyped Hkeys. split; [| split].
  - apply webhook_verify_outcome; assumption.
  - intros Hfalsy keys'. apply (webhook_verify_ignores_keys rt J keys keys' s hdr Hdec Hfalsy).
  - apply webhookKid_verify_outcome; assumption.
Qed.

Lemma key_resolution_priority_witness :
  outcome (Webhook.verifyAndDecode Fixture.rt Fixture.jose Fixture.appleKeys (JStr "unknown.kid"))
    = Throw (KeyNotFound "k9") /\
  outcome (Webhook.verifyAndDecode Fixture.rt Fixture.jose Fixture.appleKeys (JStr "sandbox.x5c"))
    = verifyWith Fixture.jose (JStr "sandbox.x5c") (AdHoc Fixture.leafCert) /\
  outcome (Webhook.verifyAndDecode Fixture.rt Fixture.jose Fixture.appleKeys (JStr "no.kid"))
    = Throw NoKeyMaterial /\
  outcome (WebhookKid.verifyAndDecode Fixture.jose Fixture.appleKeys (JStr "txn.good"))
    = Ok Fixture.txnClaims.
Proof.
  split; [| split; [| split]].
  - exact (proj1 (key_resolution_priority Fixture.rt Fixture.jose Fixture.appleKeys
                    "unknown.kid" (Fixture.es256 "k9") eq_refl eq_refl eq_refl)).
  - exact (proj1 (key_resolution_priority Fixture.rt Fixture.jose Fixture.appleKeys
                    "sandbox.x5c"
                    (JObj [("alg", JStr "ES256");
                           ("x5c", JArr [JStr Fixture.leafCert; JStr "MIIBroot"])])
                    eq_refl eq_refl eq_refl)).
  - exact (proj1 (key_resolution_priority Fixture.rt Fixture.jose Fixture.appleKeys
                    "no.kid" (JObj [("alg", JStr "ES256")]) eq_refl eq_refl eq_refl)).
  - exact (proj2 (proj2 (key_resolution_priority Fixture.rt Fixture.jose Fixture.appleKeys
                    "txn.good" (Fixture.es256 "k1") eq_refl eq_refl eq_refl))).
Defined.

(** C1, as the claim words it, fails on the kid-only endpoint: a token
    whose header has neither kid nor x5c is refused there with
    KeyNotFound, which is not NoKeyMaterial. *)
Lemma key_resolution_counterexample :
  decodeProtectedHeader Fixture.jose (JStr "no.kid") = Ok (JObj [("alg", JStr "ES256")]) /\
  outcome (WebhookKid.verifyAndDecode Fixture.jose Fixture.appleKeys (JStr "no.kid"))
    = Throw (KeyNotFound "undefined") /\
  is_KeyNotFound (KeyNotFound "undefined") = true /\
  KeyNotFound "undefined" <> NoKeyMaterial.
Proof.
  split; [reflexivity | split; [reflexivity | split; [reflexivity | discriminate]]].
Qed.

(** ** The fixed algorithm *)

Lemma asks_lift {A : Type} (r : result A) : asks_ES256_only (lift r).
Proof. reflexivity. Qed.

Lemma asks_throw {A : Type} (e : exn) : asks_ES256_only (@throw A e).
Proof. reflexivity. Qed.

Lemma asks_decode (J : Jose) (x : JSON) : asks_ES256_only (call_decodeProtectedHeader J x).
Proof.
  unfold asks_ES256_only, call_decodeProtectedHeader. rewrite bind_emit. reflexivity.
Qed.

Lemma asks_jwtVerify (J : Jose) (x : JSON) (key : Key J) :
  asks_ES256_only (call_jwtVerify J x key ["ES256"]).
Proof.
  unfold asks_ES256_only, call_jwtVerify. rewrite bind_emit. reflexivity.
Qed.

Lemma asks_bind {A B : Type} (c : M A) (k : A -> M B) :
  asks_ES256_only c -> (forall a, asks_ES256_only (k a)) -> asks_ES256_only (bind c k).
Proof.
  unfold asks_ES256_only. intros Hc Hk.
  rewrite trace_bind, forallb_app, Hc. cbn [andb].
  destruct (outcome c); [apply Hk | reflexivity].
Qed.

Ltac asks_steps :=
  repeat first
    [ apply asks_lift | apply asks_throw | apply asks_decode | apply asks_jwtVerify
    | apply asks_bind; [| intros ?]
    | match goal with
      | |- asks_ES256_only (if ?b then _ else _) => destruct b
      | |- asks_ES256_only (match ?x with _ => _ end) => destruct x
      end ].

Lemma webhook_asks_ES256_only (rt : Runtime) (J : Jose) (keys : list JSON) (jws : JSON) :
  asks_ES256_only (Webhook.verifyAndDecode rt J keys jws).
Proof.
  unfold Webhook.verifyAndDecode. asks_steps.
Qed.

Lemma webhookKid_asks_ES256_only (J : Jose) (keys : list JSON) (jws : JSON) :
  asks_ES256_only (WebhookKid.verifyAndDecode J keys jws).
Proof.
  unfold WebhookKid.verifyAndDecode. asks_steps.
Qed.

Lemma assn_asks_ES256_only (J : Jose) (jws : JSON) :
  asks_ES256_only (Assn.verifyAndDecode J jws).
Proof.
  unfold Assn.verifyAndDecode. asks_steps.
Qed.

Section FixedAlgorithm.

Variable J : Jose.
Variable jws : JSON.
Hypothesis not_ES256 :
  forall key, jwtVerify J jws key ["ES256"] = Throw SignatureInvalid.



Lemma rejected_lift_throw (e : exn) : rejected (lift (Throw e)).
Proof.
  split; [reflexivity | split; [discriminate | discriminate]].
Qed.








End FixedAlgorithm.




(** ** Nothing is forwarded before every layer has verified *)

Lemma silent_lift {A : Type} (r : result A) : silent (lift r).
Proof. reflexivity. Qed.

Lemma silent_ret {A : Type} (a : A) : silent (ret a).
Proof. reflexivity. Qed.

Lemma silent_throw {A : Type} (e : exn) : silent (@throw A e).
Proof. reflexivity. Qed.

Lemma silent_decode (J : Jose) (x : JSON) : silent (call_decodeProtectedHeader J x).
Proof.
  unfold silent, call_decodeProtectedHeader. rewrite bind_emit. reflexivity.
Qed.

Lemma silent_jwtVerify (J : Jose) (x : JSON) (key : Key J) (algs : list string) :
  silent (call_jwtVerify J x key algs).
Proof.
  unfold silent, call_jwtVerify. rewrite bind_emit. reflexivity.
Qed.

Lemma silent_bind {A B : Type} (c : M A) (k : A -> M B) :
  silent c -> (forall a, silent (k a)) -> silent (bind c k).
Proof.
  unfold silent. intros Hc Hk.
  rewrite trace_bind, existsb_app, Hc. cbn [orb].
  destruct (outcome c); [apply Hk | reflexivity].
Qed.

Ltac silent_steps :=
  repeat first
    [ apply silent_lift | apply silent_ret | apply silent_throw
    | apply silent_decode | apply silent_jwtVerify
    | apply silent_bind; [| intros ?]
    | match goal with
      | |- silent (if ?b then _ else _) => destruct b
      | |- silent (match ?x with _ => _ end) => destruct x
      end ].

Lemma webhook_verify_silent (rt : Runtime) (J : Jose) (keys : list JSON) (jws : JSON) :
  silent (Webhook.verifyAndDecode rt J keys jws).
Proof.
  unfold Webhook.verifyAndDecode. silent_steps.
Qed.

Lemma webhook_nested_silent (rt : Runtime) (J : Jose) (keys : list JSON) (note : JSON) (k : string) :
  silent (Webhook.nested rt J keys note k).
Proof.
  unfold Webhook.nested.
  repeat first [ apply webhook_verify_silent | progress silent_steps ].
Qed.

Lemma webhookKid_verify_silent (J : Jose) (keys : list JSON) (jws : JSON) :
  silent (WebhookKid.verifyAndDecode J keys jws).
Proof.
  unfold WebhookKid.verifyAndDecode. silent_steps.
Qed.

Lemma webhookKid_nested_silent (J : Jose) (keys : list JSON) (note : JSON) (k : string) :
  silent (WebhookKid.nested J keys note k).
Proof.
  unfold WebhookKid.nested.
  repeat first [ apply webhookKid_verify_silent | progress silent_steps ].
Qed.

Lemma assn_verify_silent (J : Jose) (jws : JSON) : silent (Assn.verifyAndDecode J jws).
Proof.
  unfold Assn.verifyAndDecode. silent_steps.
Qed.

Lemma assn_nested_silent (J : Jose) (note : JSON) (k : string) :
  silent (Assn.nested J note k).
Proof.
  unfold Assn.nested.
  repeat first [ apply assn_verify_silent | progress silent_steps ].
Qed.

(** The layers in sequence, as the three handlers run them. *)
Lemma layers_all_or_nothing
    (rt : Runtime) (env : Env) (now : Z)
    (outer : M JSON) (nested : JSON -> string -> M JSON) (note : JSON) (e : exn) :
  silent outer ->
  (forall n k, silent (nested n k)) ->
  outcome outer = Ok note ->
  nested_layer_fails nested note e ->
  let run :=
    note <~ outer ;;
    txnInfo <~ nested note "signedTransactionInfo" ;;
    renInfo <~ nested note "signedRenewalInfo" ;;
    out <~ lift (normalize rt now note txnInfo renInfo) ;;
    forward_out rt env out in
  outcome run = Throw e /\ silent run.
Proof.
  intros Houter Hnested Hnote Hfails run. subst run. split.
  - rewrite outcome_bind, Hnote, outcome_bind.
    destruct Hfails as [Htxn | [[txnInfo Htxn] Hren]]; rewrite Htxn; [reflexivity |].
    rewrite outcome_bind, Hren. reflexivity.
  - unfold silent. rewrite trace_bind, existsb_app, Houter, Hnote. cbn [orb].
    rewrite trace_bind, existsb_app, (Hnested note "signedTransactionInfo"). cbn [orb].
    destruct Hfails as [Htxn | [[txnInfo Htxn] Hren]]; rewrite Htxn; [reflexivity |].
    rewrite trace_bind, existsb_app, (Hnested note "signedRenewalInfo"), Hren.
    reflexivity.
Qed.

Lemma try_catch_Throw (c : M Response) (e : exn) :
  outcome c = Throw e -> try_catch c = (trace c, Send 400 (String_of_exn e)).
Proof.
  destruct c as [t [r | e']]; simpl; intros H; [discriminate |].
  injection H as ->. reflexivity.
Qed.

(** C3. When the outer token verifies and a nested token does not, the
    request is rejected with status 400 and the text of the error, and
    nothing has been forwarded downstream; so on each of the three
    endpoints. *)
Theorem nested_failure_rejects_request
    (rt : Runtime) (J : Jose) (env : Env) (keys : list JSON) (now : Z)
    (note : JSON) (e : exn) :
  (forall (req : Webhook.Request) (raw jws : string),
     Webhook.method req = "POST" ->
     Webhook.stream req = Ok raw ->
     let body := match JSON_parse rt raw with Ok v => v | Throw _ => JObj [] end in
     truthy (get body "signedPayload") = true ->
     String_ (get body "signedPayload") = Ok jws ->
     outcome (Webhook.verifyAndDecode rt J keys (JStr jws)) = Ok note ->
     nested_layer_fails (Webhook.nested rt J keys) note e ->
     snd (Webhook.handler rt J env keys now req) = Send 400 (String_of_exn e) /\
     existsb is_Forward (fst (Webhook.handler rt J env keys now req)) = false) /\
  (forall req : WebhookKid.Request,
     WebhookKid.method req = "POST" ->
     truthy (get (WebhookKid.body req) "signedPayload") = true ->
     outcome (WebhookKid.verifyAndDecode J keys (get (WebhookKid.body req) "signedPayload"))
       = Ok note ->
     nested_layer_fails (WebhookKid.nested J keys) note e ->
     snd (WebhookKid.handler rt J env keys now req) = Send 400 (String_of_exn e) /\
     existsb is_Forward (fst (WebhookKid.handler rt J env keys now req)) = false) /\
  (forall req : Assn.Request,
     Assn.method req = "POST" ->
     truthy (get (Assn.body req) "signedPayload") = true ->
     outcome (Assn.verifyAndDecode J (get (Assn.body req) "signedPayload")) = Ok note ->
     nested_layer_fails (Assn.nested J) note e ->
     snd (Assn.handler rt J env now req) = Send 400 (String_of_exn e) /\
     existsb is_Forward (fst (Assn.handler rt J env now req)) = false).
Proof.
  split; [| split].
  - intros req raw jws Hpost Hraw body Hsp Hjws Hnote Hfails.
    unfold Webhook.handler. rewrite Hpost, Hraw. cbn [String.eqb Ascii.eqb Bool.eqb negb].
    rewrite bind_lift_Ok. fold body. rewrite Hsp, Hjws, bind_lift_Ok.
    destruct (layers_all_or_nothing rt env now _ _ note e
                (webhook_verify_silent rt J keys (JStr jws))
                (webhook_nested_silent rt J keys) Hnote Hfails) as [Hout Hsilent].
    rewrite (try_catch_Throw _ _ Hout). split; [reflexivity | exact Hsilent].
  - intros req Hpost Hsp Hnote Hfails.
    unfold WebhookKid.handler. rewrite Hpost, Hsp. cbn [String.eqb Ascii.eqb Bool.eqb negb].
    destruct (layers_all_or_nothing rt env now _ _ note e
                (webhookKid_verify_silent J keys _)
                (webhookKid_nested_silent J keys) Hnote Hfails) as [Hout Hsilent].
    rewrite (try_catch_Throw _ _ Hout). split; [reflexivity | exact Hsilent].
  - intros req Hpost Hsp Hnote Hfails.
    assert (Hbody : js_or (Assn.body req) (JObj []) = Assn.body req).
    { unfold js_or. destruct (Assn.body req); try discriminate; reflexivity. }
    unfold Assn.handler. rewrite Hpost, Hbody, Hsp. cbn [String.eqb Ascii.eqb Bool.eqb negb].
    destruct (layers_all_or_nothing rt env now _ _ note e
                (assn_verify_silent J _)
                (assn_nested_silent J) Hnote Hfails) as [Hout Hsilent].
    rewrite (try_catch_Throw _ _ Hout). split; [reflexivity | exact Hsilent].
Qed.

Lemma nested_failure_rejects_request_witness :
  (let run := Webhook.handler Fixture.rt Fixture.jose Fixture.env Fixture.appleKeys Fixture.clock
                (Webhook.mkRequest "POST" (Ok (Fixture.notifyText "outer.badtxn"))) in
   snd run = Send 400 (String_of_exn SignatureInvalid) /\
   existsb is_Forward (fst run) = false) /\
  (let run := WebhookKid.handler Fixture.rt Fixture.jose Fixture.env Fixture.appleKeys
                Fixture.clock
                (WebhookKid.mkRequest "POST" (JObj [("signedPayload", JStr "outer.badren")])) in
   snd run = Send 400 (String_of_exn SignatureInvalid) /\
   existsb is_Forward (fst run) = false) /\
  (let run := Assn.handler Fixture.rt Fixture.jose Fixture.env Fixture.clock
                (Assn.mkRequest "POST" (JObj [("signedPayload", JStr "outer.badtxn")])) in
   snd run = Send 400 (String_of_exn SignatureInvalid) /\
   existsb is_Forward (fst run) = false).
Proof.
  split; [| split].
  - exact (proj1 (nested_failure_rejects_request
                    Fixture.rt Fixture.jose Fixture.env Fixture.appleKeys Fixture.clock
                    (Fixture.note "DID_RENEW" (JStr "txn.forged") JUndefined)
                    SignatureInvalid)
                 (Webhook.mkRequest "POST" (Ok (Fixture.notifyText "outer.badtxn")))
                 (Fixture.notifyText "outer.badtxn") "outer.badtxn"
                 eq_refl eq_refl eq_refl eq_refl eq_refl (or_introl eq_refl)).
  - exact (proj1 (proj2 (nested_failure_rejects_request
                    Fixture.rt Fixture.jose Fixture.env Fixture.appleKeys Fixture.clock
                    (Fixture.note "DID_RENEW" (JStr "txn.good") (JStr "txn.forged"))
                    SignatureInvalid))
                 (WebhookKid.mkRequest "POST" (JObj [("signedPayload", JStr "outer.badren")]))
                 eq_refl eq_refl eq_refl
                 (or_intror (conj (ex_intro _ Fixture.txnClaims eq_refl) eq_refl))).
  - exact (proj2 (proj2 (nested_failure_rejects_request
                    Fixture.rt Fixture.jose Fixture.env Fixture.appleKeys Fixture.clock
                    (Fixture.note "DID_RENEW" (JStr "txn.forged") JUndefined)
                    SignatureInvalid))
                 (Assn.mkRequest "POST" (JObj [("signedPayload", JStr "outer.badtxn")]))
                 eq_refl eq_refl eq_refl (or_introl eq_refl)).
Defined.

(** ** Requests without a signedPayload *)

(** C4, as the code has it.  A POST whose body has no signedPayload (or a
    falsy one) never reaches jose or the downstream endpoint.
    api/webhook.js and the kid-only endpoint answer 200 with the body they
    read under the key body (api/webhook.js reads an empty object from a
    text that is not JSON); the endpoint on the remote key set answers 400
    with the text missing signedPayload. *)
Theorem no_signedPayload_no_verification
    (rt : Runtime) (J : Jose) (env : Env) (keys : list JSON) (now : Z) :
  (forall (req : Webhook.Request) (raw : string),
     Webhook.method req = "POST" ->
     Webhook.stream req = Ok raw ->
     let body := match JSON_parse rt raw with Ok v => v | Throw _ => JObj [] end in
     truthy (get body "signedPayload") = false ->
     Webhook.handler rt J env keys now req =
       ([], Json 200 (JObj [("received", JBool true); ("body", body)]))) /\
  (forall req : WebhookKid.Request,
     WebhookKid.method req = "POST" ->
     truthy (get (WebhookKid.body req) "signedPayload") = false ->
     WebhookKid.handler rt J env keys now req =
       ([], Json 200 (JObj [("received", JBool true); ("body", WebhookKid.body req)]))) /\
  (forall req : Assn.Request,
     Assn.method req = "POST" ->
     truthy (get (Assn.body req) "signedPayload") = false ->
     Assn.handler rt J env now req = ([], Send 400 "missing signedPayload")).
Proof.
  split; [| split].
  - intros req raw Hpost Hraw body Hsp.
    unfold Webhook.handler. rewrite Hpost, Hraw. cbn [String.eqb Ascii.eqb Bool.eqb negb].
    rewrite bind_lift_Ok. fold body. rewrite Hsp. reflexivity.
  - intros req Hpost Hsp.
    unfold WebhookKid.handler. rewrite Hpost, Hsp. reflexivity.
  - intros req Hpost Hsp.
    assert (Hfalsy : truthy (get (js_or (Assn.body req) (JObj [])) "signedPayload") = false).
    { unfold js_or. destruct (truthy (Assn.body req)); [exact Hsp | reflexivity]. }
    unfold Assn.handler. rewrite Hpost, Hfalsy. reflexivity.
Qed.

Lemma no_signedPayload_no_verification_witness :
  Webhook.handler Fixture.rt Fixture.jose Fixture.env Fixture.appleKeys Fixture.clock
    (Webhook.mkRequest "POST" (Ok Fixture.pingText)) =
    ([], Json 200 (JObj [("received", JBool true); ("body", JObj [("ping", JBool true)])])) /\
  WebhookKid.handler Fixture.rt Fixture.jose Fixture.env Fixture.appleKeys Fixture.clock
    (WebhookKid.mkRequest "POST" (JObj [("ping", JBool true)])) =
    ([], Json 200 (JObj [("received", JBool true); ("body", JObj [("ping", JBool true)])])) /\
  Assn.handler Fixture.rt Fixture.jose Fixture.env Fixture.clock
    (Assn.mkRequest "POST" (JObj [("ping", JBool true)])) =
    ([], Send 400 "missing signedPayload").
Proof.
  split; [| split].
  - exact (proj1 (no_signedPayload_no_verification
                    Fixture.rt Fixture.jose Fixture.env Fixture.appleKeys Fixture.clock)
                 (Webhook.mkRequest "POST" (Ok Fixture.pingText)) Fixture.pingText
                 eq_refl eq_refl eq_refl).
  - exact (proj1 (proj2 (no_signedPayload_no_verification
                    Fixture.rt Fixture.jose Fixture.env Fixture.appleKeys Fixture.clock))
                 (WebhookKid.mkRequest "POST" (JObj [("ping", JBool true)]))
                 eq_refl eq_refl).
  - exact (proj2 (proj2 (no_signedPayload_no_verification
                    Fixture.rt Fixture.jose Fixture.env Fixture.appleKeys Fixture.clock))
                 (Assn.mkRequest "POST" (JObj [("ping", JBool true)]))
                 eq_refl eq_refl).
Defined.

(** C4, as the claim words it, fails on the endpoint on the remote key
    set: a body without signedPayload is answered 400, not acknowledged,
    and is not echoed. *)
Lemma no_signedPayload_counterexample :
  get (JObj [("ping", JBool true)]) "signedPayload" = JUndefined /\
  Assn.handler Fixture.rt Fixture.jose Fixture.env Fixture.clock
    (Assn.mkRequest "POST" (JObj [("ping", JBool true)])) =
    ([], Send 400 "missing signedPayload") /\
  status_of (snd (Assn.handler Fixture.rt Fixture.jose Fixture.env Fixture.clock
                    (Assn.mkRequest "POST" (JObj [("ping", JBool true)])))) <> 200.
Proof.
  split; [reflexivity | split; [reflexivity | discriminate]].
Qed.

(* ------------------------------------------------------------------ *)
(** * Further properties of the code *)

(** ** More on the operation *)

Lemma lower_ascii_idempotent (c : ascii) : lower_ascii (lower_ascii c) = lower_ascii c.
Proof.
  destruct c as [[] [] [] [] [] [] [] []]; reflexivity.
Qed.

Lemma toLowerCase_idempotent (s : string) : toLowerCase (toLowerCase s) = toLowerCase s.
Proof.
  unfold toLowerCase. induction s as [| c s IH]; simpl.
  - reflexivity.
  - rewrite lower_ascii_idempotent, IH. reflexivity.
Qed.

(** The operation is never empty and never holds an upper-case letter,
    whatever the type code and the renewal info are. *)
Theorem operation_lowercase_not_empty (note renInfo : JSON) (operation : string) :
  mapOperation note renInfo = Ok operation ->
  operation <> "" /\ toLowerCase operation = operation.
Proof.
  unfold mapOperation.
  destruct (call_toUpperCase _) as [t | e]; [| discriminate].
  intros H. injection H as <-.
  repeat match goal with
         | |- context [if strict_equals ?a ?b then _ else _] => destruct (strict_equals a b)
         | |- context [if String.eqb ?a ?b then _ else _] => destruct (String.eqb a b) eqn:?
         end;
    split;
    first [ discriminate | reflexivity
          | apply String.eqb_neq; assumption | apply toLowerCase_idempotent ].
Qed.

Lemma operation_lowercase_not_empty_witness :
  "test_notification" <> "" /\ toLowerCase "test_notification" = "test_notification".
Proof.
  exact (operation_lowercase_not_empty
           (JObj [("notificationType", JStr "Test_Notification")]) JNull
           "test_notification" eq_refl).
Defined.



Lemma mapOperation_of_string_or_falsy (note renInfo : JSON) :
  truthy (get note "notificationType") = false \/
    is_string (get note "notificationType") = true ->
  exists operation, mapOperation note renInfo = Ok operation.
Proof.
  unfold mapOperation, js_or. intros [Hf | Hs].
  - rewrite Hf. cbn [call_toUpperCase]. eexists. reflexivity.
  - destruct (get note "notificationType"); try discriminate.
    destruct (truthy (JStr s)); cbn [call_toUpperCase]; eexists; reflexivity.
Qed.



(** ** More on timestamps *)

Lemma length_append (a b : string) :
  String.length (a ++ b) = (String.length a + String.length b)%nat.
Proof.
  induction a as [| c a IH]; simpl; [reflexivity | rewrite IH; reflexivity].
Qed.

Lemma length_pad (width : nat) (n : Z) : String.length (pad width n) = width.
Proof.
  revert n. induction width as [| w IH]; intros n; simpl.
  - reflexivity.
  - rewrite length_append, IH. unfold digit. simpl. apply Nat.add_1_r.
Qed.

Lemma length_toISOString (t : Z) (s : string) :
  toISOString (Some t) = Ok s -> String.length s = 24%nat \/ String.length s = 27%nat.
Proof.
  unfold toISOString. destruct (civil_from_days (t / msPerDay)) as [[y m] d].
  intros H. injection H as <-.
  destruct ((0 <=? y) && (y <=? 9999)); [left | right; destruct (y <? 0)];
    repeat rewrite length_append; repeat rewrite length_pad; reflexivity.
Qed.

Lemma msToIso_in_range (rt : Runtime) (v : Z) :
  v <> 0 ->
  -8640000000000 <= v <= 8640000000000000 ->
  exists s, msToIso rt (JNum v) = Ok (JStr s) /\
            (String.length s = 24%nat \/ String.length s = 27%nat).
Proof.
  intros Hv [Hlo Hhi]. rewrite (msToIso_number rt v Hv). unfold iso_of_ms, Date_.
  destruct (v >? 10 ^ 12) eqn:E; rewrite Z.gtb_ltb in E;
    [apply Z.ltb_lt in E | apply Z.ltb_ge in E].
  - replace (Z.abs v <=? 8640000000000000) with true by (symmetry; apply Z.leb_le; lia).
    destruct (toISOString_valid v) as [s Hs]. rewrite Hs. exists s.
    split; [reflexivity | apply (length_toISOString v), Hs].
  - replace (Z.abs (v * 1000) <=? 8640000000000000) with true
      by (symmetry; apply Z.leb_le; lia).
    destruct (toISOString_valid (v * 1000)) as [s Hs]. rewrite Hs. exists s.
    split; [reflexivity | apply (length_toISOString (v * 1000)), Hs].
Qed.

Lemma msToIso_out_of_range (rt : Runtime) (v : Z) :
  v < -8640000000000 \/ 8640000000000000 < v ->
  msToIso rt (JNum v) = Throw invalid_time.
Proof.
  intros Hout. rewrite (msToIso_number rt v) by lia. unfold iso_of_ms, Date_.
  destruct (v >? 10 ^ 12) eqn:E; rewrite Z.gtb_ltb in E;
    [apply Z.ltb_lt in E | apply Z.ltb_ge in E].
  - replace (Z.abs v <=? 8640000000000000) with false by (symmetry; apply Z.leb_gt; lia).
    reflexivity.
  - replace (Z.abs (v * 1000) <=? 8640000000000000) with false
      by (symmetry; apply Z.leb_gt; lia).
    reflexivity.
Qed.

(** A non-zero number is given a date exactly between -8640000000000 and
    8640000000000000: there msToIso gives a text of 24 characters (27 when
    the year has a sign), and outside it throws the RangeError of an
    invalid date. *)
Theorem msToIso_range (rt : Runtime) (v : Z) :
  v <> 0 ->
  (-8640000000000 <= v <= 8640000000000000 ->
   exists s, msToIso rt (JNum v) = Ok (JStr s) /\
             (String.length s = 24%nat \/ String.length s = 27%nat)) /\
  (v < -8640000000000 \/ 8640000000000000 < v ->
   msToIso rt (JNum v) = Throw invalid_time).
Proof.
  intros Hv. split.
  - apply msToIso_in_range, Hv.
  - apply msToIso_out_of_range.
Qed.

Lemma msToIso_range_witness :
  (exists s, msToIso Fixture.rt (JNum (-86400)) = Ok (JStr s) /\
             (String.length s = 24%nat \/ String.length s = 27%nat)) /\
  msToIso Fixture.rt (JNum 8640000000000001) = Throw invalid_time.
Proof.
  split.
  - apply (msToIso_range Fixture.rt (-86400)); lia.
  - apply (msToIso_range Fixture.rt 8640000000000001); lia.
Defined.

(** A string timestamp is read as the number it spells: a non-empty
    string is truthy, so one that spells 0 gives the text of the epoch
    (the number 0 gives null), and one that spells no number gives the
    RangeError of an invalid date. *)
Theorem msToIso_of_string (rt : Runtime) (s : string) :
  s <> "" ->
  (forall n, StringToNumber rt s = Some n ->
     msToIso rt (JStr s) = iso_of_ms (if n >? 10 ^ 12 then n else n * 1000)) /\
  (StringToNumber rt s = Some 0 ->
     msToIso rt (JStr s) = Ok (JStr "1970-01-01T00:00:00.000Z")) /\
  (StringToNumber rt s = None -> msToIso rt (JStr s) = Throw invalid_time).
Proof.
  intros Hs.
  assert (Ht : truthy (JStr s) = true).
  { simpl. apply negb_true_iff, String.eqb_neq, Hs. }
  assert (Hnum : forall n, StringToNumber rt s = Some n ->
     msToIso rt (JStr s) = iso_of_ms (if n >? 10 ^ 12 then n else n * 1000)).
  { intros n Hn. unfold msToIso, iso_of_ms, bind_result. rewrite Ht.
    cbn [negb Number_]. rewrite Hn. destruct (toISOString _); reflexivity. }
  split; [exact Hnum | split].
  - intros H0. rewrite (Hnum 0 H0). vm_compute. reflexivity.
  - intros Hnan. unfold msToIso. rewrite Ht. cbn [negb Number_]. rewrite Hnan. reflexivity.
Qed.

Lemma msToIso_of_string_witness :
  msToIso Fixture.rt (JStr "0") = Ok (JStr "1970-01-01T00:00:00.000Z") /\
  msToIso Fixture.rt (JStr "soon") = Throw invalid_time.
Proof.
  split.
  - apply (msToIso_of_string Fixture.rt "0"); [discriminate | reflexivity].
  - apply (msToIso_of_string Fixture.rt "soon"); [discriminate | reflexivity].
Defined.

(** ** More on the record [out] *)

Lemma js_or_empty_default (v : JSON) :
  js_or v (JStr "") = JStr "" \/ truthy (js_or v (JStr "")) = true.
Proof.
  unfold js_or. destruct (truthy v) eqn:E; [right; exact E | left; reflexivity].
Qed.

Lemma msToIso_null_or_text (rt : Runtime) (ms r : JSON) :
  msToIso rt ms = Ok r -> r = JNull \/ exists s, r = JStr s.
Proof.
  unfold msToIso. destruct (negb (truthy ms)).
  - intros H. injection H as <-. left. reflexivity.
  - destruct (Number_ rt ms) as [n | e]; [| discriminate].
    destruct (toISOString _) as [s | e]; [| discriminate].
    intros H. injection H as <-. right. exists s. reflexivity.
Qed.

(** The record has a fixed shape: the same twelve keys in the same order
    whatever the layers hold, source always apple-assn, the fields copied
    from the layers never null or undefined (a missing one is the empty
    string), the expiry null or a text, the two lists arrays. *)
Theorem out_has_fixed_shape
    (rt : Runtime) (now : Z) (note txnInfo renInfo out : JSON) :
  normalize rt now note txnInfo renInfo = Ok out ->
  (exists props, out = JObj props /\ List.map fst props = out_keys) /\
  get out "source" = JStr "apple-assn" /\
  (forall k, In k ["environment"; "notification_uuid"; "type"; "subtype";
                   "app_account_token"] ->
     get out k = JStr "" \/ truthy (get out k) = true) /\
  (get out "transaction_expires_at" = JNull \/
   exists s, get out "transaction_expires_at" = JStr s) /\
  (exists nowIso operation products entitlements,
     get out "now" = JStr nowIso /\
     get out "operation" = JStr operation /\
     get out "products" = JArr products /\
     get out "entitlements" = JArr entitlements).
Proof.
  intros Hout. apply normalize_Ok in Hout.
  destruct Hout as (expiresIso & operation & nowIso & tid & ents &
                    Hexp & _ & _ & _ & _ & ->).
  split; [eexists; split; reflexivity |].
  split; [reflexivity |].
  split.
  - intros k Hk. simpl in Hk.
    destruct Hk as [<- | [<- | [<- | [<- | [<- | []]]]]];
      cbn [get lookup String.eqb Ascii.eqb Bool.eqb]; apply js_or_empty_default.
  - split.
    + cbn [get lookup String.eqb Ascii.eqb Bool.eqb].
      apply (msToIso_null_or_text rt _ _ Hexp).
    + do 4 eexists. repeat split; reflexivity.
Qed.

Lemma out_has_fixed_shape_witness :
  exists out,
    normalize Fixture.rt Fixture.clock JNull JNull JNull = Ok out /\
    get out "source" = JStr "apple-assn" /\
    exists props, out = JObj props /\ List.map fst props = out_keys.
Proof.
  eexists. split; [vm_compute; reflexivity |].
  split.
  - exact (proj1 (proj2 (out_has_fixed_shape Fixture.rt Fixture.clock
                           JNull JNull JNull _ eq_refl))).
  - exact (proj1 (out_has_fixed_shape Fixture.rt Fixture.clock
                    JNull JNull JNull _ eq_refl)).
Defined.

Lemma String_of_primitive (v : JSON) :
  is_primitive v = true -> exists s, String_ v = Ok s.
Proof.
  destruct v; try discriminate; intros _; simpl; try (eexists; reflexivity).
  destruct b; eexists; reflexivity.
Qed.

Lemma String_or_empty_of_primitive (v : JSON) :
  is_primitive v = true -> exists s, String_ (js_or v (JStr "")) = Ok s.
Proof.
  intros H. unfold js_or. destruct (truthy v).
  - apply String_of_primitive, H.
  - eexists. reflexivity.
Qed.

(** The record is built, with no exception, whenever the clock reads a
    valid time, the type code is a string or falsy, the expiresDate is
    falsy or a number between -8640000000000 and 8640000000000000, and
    the two transaction ids are neither arrays nor objects. *)
Theorem normalize_succeeds_on_typed_claims
    (rt : Runtime) (now : Z) (note txnInfo renInfo : JSON) :
  Z.abs now <= 8640000000000000 ->
  truthy (get note "notificationType") = false \/
    is_string (get note "notificationType") = true ->
  truthy (get txnInfo "expiresDate") = false \/
    (exists v, get txnInfo "expiresDate" = JNum v /\
               -8640000000000 <= v <= 8640000000000000) ->
  is_primitive (get txnInfo "transactionId") = true ->
  is_primitive (get txnInfo "originalTransactionId") = true ->
  exists out, normalize rt now note txnInfo renInfo = Ok out.
Proof.
  intros Hnow Hcode Hexp Htid Hotid.
  unfold normalize.
  assert (E1 : exists expiresIso, msToIso rt (get txnInfo "expiresDate") = Ok expiresIso).
  { destruct Hexp as [Hf | (v & -> & Hv)].
    - exists JNull. apply msToIso_falsy, Hf.
    - destruct (Z.eq_dec v 0) as [-> | Hv0].
      + exists JNull. reflexivity.
      + destruct (msToIso_in_range rt v Hv0 Hv) as (s & Hs & _).
        exists (JStr s). exact Hs. }
  destruct E1 as [expiresIso ->]. cbn [bind_result].
  destruct (mapOperation_of_string_or_falsy note renInfo Hcode) as [operation ->].
  cbn [bind_result].
  destruct (clock_reading_prints now Hnow) as [nowIso ->]. cbn [bind_result].
  destruct (String_or_empty_of_primitive _ Htid) as [tid ->]. cbn [bind_result].
  destruct (truthy (productId_of txnInfo renInfo)).
  - destruct (String_or_empty_of_primitive _ Hotid) as [otid ->]. cbn [bind_result].
    eexists. reflexivity.
  - cbn [bind_result]. eexists. reflexivity.
Qed.

Lemma normalize_succeeds_on_typed_claims_witness :
  exists out,
    normalize Fixture.rt Fixture.clock (Fixture.note "REFUND" JNull JNull)
              Fixture.txnClaims Fixture.renClaims = Ok out.
Proof.
  apply (normalize_succeeds_on_typed_claims Fixture.rt Fixture.clock
           (Fixture.note "REFUND" JNull JNull) Fixture.txnClaims Fixture.renClaims).
  - simpl. lia.
  - right. reflexivity.
  - right. exists 1700000000. split; [reflexivity | lia].
  - reflexivity.
  - reflexivity.
Defined.






(** ** Whole requests *)

Lemma fst_try_catch (c : M Response) : fst (try_catch c) = trace c.
Proof.
  destruct c as [t [r | e]]; reflexivity.
Qed.

Lemma count_app (kind : event -> bool) (a b : list event) :
  count kind (a ++ b) = (count kind a + count kind b)%nat.
Proof.
  unfold count. rewrite filter_app, length_app. reflexivity.
Qed.

Lemma count_bind {A B : Type} (kind : event -> bool) (c : M A) (k : A -> M B) :
  count kind (trace (bind c k)) =
  (count kind (trace c) + match outcome c with
                          | Ok a => count kind (trace (k a))
                          | Throw _ => 0
                          end)%nat.
Proof.
  rewrite trace_bind, count_app. destruct (outcome c); reflexivity.
Qed.

Lemma silent_count {A : Type} (c : M A) : silent c -> count is_Forward (trace c) = 0%nat.
Proof.
  unfold silent, count. induction (trace c) as [| ev t IH]; simpl; [reflexivity |].
  intros H. apply orb_false_iff in H. destruct H as [Hev Ht].
  rewrite Hev. apply IH, Ht.
Qed.

Lemma silent_not_In {A : Type} (c : M A) (url : option string) (secret : string) (out : JSON) :
  silent c -> ~ In (Forward url secret out) (trace c).
Proof.
  unfold silent. intros H Hin.
  assert (E : existsb is_Forward (trace c) = true).
  { apply existsb_exists. exists (Forward url secret out). split; [exact Hin | reflexivity]. }
  rewrite H in E. discriminate.
Qed.

Lemma trace_forward_out (rt : Runtime) (env : Env) (out : JSON) :
  trace (forward_out rt env out) = [Forward (BUBBLE_HOOK_URL env) (secret_of env) out].
Proof.
  unfold forward_out. rewrite bind_emit. cbn [trace fst].
  destruct (fetch rt _ _ out); reflexivity.
Qed.

Lemma outcome_forward_out (rt : Runtime) (env : Env) (out : JSON) :
  outcome (forward_out rt env out) =
  match fetch rt (BUBBLE_HOOK_URL env) (secret_of env) out with
  | Ok status => Ok (Json 200 (JObj [("forwardedStatus", JNum status)]))
  | Throw e => Throw e
  end.
Proof.
  unfold forward_out. rewrite bind_emit. cbn [outcome snd].
  destruct (fetch rt _ _ out); reflexivity.
Qed.

(** The events of the layers, whatever comes of them. *)
Lemma trace_layers (rt : Runtime) (env : Env) (now : Z)
    (outer : M JSON) (nested : JSON -> string -> M JSON) :
  trace (layers rt env now outer nested) =
  (trace outer ++
   match outcome outer with
   | Throw _ => []
   | Ok note =>
       trace (nested note "signedTransactionInfo") ++
       match outcome (nested note "signedTransactionInfo") with
       | Throw _ => []
       | Ok txnInfo =>
           trace (nested note "signedRenewalInfo") ++
           match outcome (nested note "signedRenewalInfo") with
           | Throw _ => []
           | Ok renInfo =>
               match normalize rt now note txnInfo renInfo with
               | Throw _ => []
               | Ok out => [Forward (BUBBLE_HOOK_URL env) (secret_of env) out]
               end
           end
       end
   end)%list.
Proof.
  unfold layers. rewrite trace_bind. f_equal.
  destruct (outcome outer) as [note |]; [| reflexivity].
  rewrite trace_bind. f_equal.
  destruct (outcome (nested note "signedTransactionInfo")) as [txnInfo |]; [| reflexivity].
  rewrite trace_bind. f_equal.
  destruct (outcome (nested note "signedRenewalInfo")) as [renInfo |]; [| reflexivity].
  rewrite trace_bind. cbn [trace lift fst outcome snd app].
  destruct (normalize rt now note txnInfo renInfo) as [out |]; [| reflexivity].
  apply trace_forward_out.
Qed.

Lemma outcome_layers (rt : Runtime) (env : Env) (now : Z)
    (outer : M JSON) (nested : JSON -> string -> M JSON) :
  outcome (layers rt env now outer nested) =
  (note <- outcome outer ;;
   txnInfo <- outcome (nested note "signedTransactionInfo") ;;
   renInfo <- outcome (nested note "signedRenewalInfo") ;;
   out <- normalize rt now note txnInfo renInfo ;;
   status <- fetch rt (BUBBLE_HOOK_URL env) (secret_of env) out ;;
   Ok (Json 200 (JObj [("forwardedStatus", JNum status)]))).
Proof.
  unfold layers. rewrite outcome_bind.
  destruct (outcome outer) as [note |]; [| reflexivity]. cbn [bind_result].
  rewrite outcome_bind.
  destruct (outcome (nested note "signedTransactionInfo")) as [txnInfo |]; [| reflexivity].
  cbn [bind_result]. rewrite outcome_bind.
  destruct (outcome (nested note "signedRenewalInfo")) as [renInfo |]; [| reflexivity].
  cbn [bind_result]. rewrite outcome_bind, outcome_lift.
  destruct (normalize rt now note txnInfo renInfo) as [out |]; [| reflexivity].
  cbn [bind_result]. rewrite outcome_forward_out.
  destruct (fetch rt _ _ out); reflexivity.
Qed.

Lemma layers_forward_inv (rt : Runtime) (env : Env) (now : Z)
    (outer : M JSON) (nested : JSON -> string -> M JSON)
    (url : option string) (secret : string) (out : JSON) :
  silent outer ->
  (forall n k, silent (nested n k)) ->
  In (Forward url secret out) (trace (layers rt env now outer nested)) ->
  url = BUBBLE_HOOK_URL env /\ secret = secret_of env /\
  exists note txnInfo renInfo,
    outcome outer = Ok note /\
    outcome (nested note "signedTransactionInfo") = Ok txnInfo /\
    outcome (nested note "signedRenewalInfo") = Ok renInfo /\
    normalize rt now note txnInfo renInfo = Ok out.
Proof.
  intros Houter Hnested. rewrite trace_layers.
  intros Hin. apply in_app_or in Hin.
  destruct Hin as [Hin | Hin]; [destruct (silent_not_In _ _ _ _ Houter Hin) |].
  destruct (outcome outer) as [note |] eqn:E0; [| destruct Hin].
  apply in_app_or in Hin.
  destruct Hin as [Hin | Hin]; [destruct (silent_not_In _ _ _ _ (Hnested _ _) Hin) |].
  destruct (outcome (nested note "signedTransactionInfo")) as [txnInfo |] eqn:E1;
    [| destruct Hin].
  apply in_app_or in Hin.
  destruct Hin as [Hin | Hin]; [destruct (silent_not_In _ _ _ _ (Hnested _ _) Hin) |].
  destruct (outcome (nested note "signedRenewalInfo")) as [renInfo |] eqn:E2;
    [| destruct Hin].
  destruct (normalize rt now note txnInfo renInfo) as [out' |] eqn:Hout; [| destruct Hin].
  destruct Hin as [Hin | []]. injection Hin as <- <- <-.
  split; [reflexivity | split; [reflexivity |]].
  exists note, txnInfo, renInfo. repeat split; assumption.
Qed.

Lemma layers_within_bounds (rt : Runtime) (env : Env) (now : Z)
    (outer : M JSON) (nested : JSON -> string -> M JSON) :
  silent outer -> frugal outer -> asks_ES256_only outer ->
  (forall n k, silent (nested n k) /\ frugal (nested n k) /\ asks_ES256_only (nested n k)) ->
  within_bounds (try_catch (layers rt env now outer nested)).
Proof.
  intros Hs Hf Ha Hn. unfold within_bounds. rewrite fst_try_catch, trace_layers.
  unfold frugal, asks_ES256_only in *.
  pose proof (silent_count _ Hs) as Hs0.
  destruct (outcome outer) as [note |].
  2: { rewrite app_nil_r. rewrite Hs0. split; [lia | split; [lia | exact Ha]]. }
  destruct (Hn note "signedTransactionInfo") as (Hs1 & Hf1 & Ha1).
  destruct (Hn note "signedRenewalInfo") as (Hs2 & Hf2 & Ha2).
  apply silent_count in Hs1, Hs2.
  repeat rewrite count_app. repeat rewrite forallb_app.
  rewrite Hs0, Hs1, Ha, Ha1.
  destruct (outcome (nested note "signedTransactionInfo")) as [txnInfo |].
  2: { cbn. split; [lia | split; [lia | reflexivity]]. }
  repeat rewrite count_app. repeat rewrite forallb_app. rewrite Hs2, Ha2.
  destruct (outcome (nested note "signedRenewalInfo")) as [renInfo |].
  2: { cbn. split; [lia | split; [lia | reflexivity]]. }
  destruct (normalize rt now note txnInfo renInfo) as [out |];
    cbn; split; try lia; split; try lia; reflexivity.
Qed.

Lemma frugal_quiet {A : Type} (c : M A) :
  existsb is_Verify (trace c) = false -> count is_Verify (trace c) = 0%nat.
Proof.
  unfold count. induction (trace c) as [| ev t IH]; simpl; [reflexivity |].
  intros H. apply orb_false_iff in H. destruct H as [Hev Ht].
  rewrite Hev. apply IH, Ht.
Qed.

Lemma frugal_bind {A B : Type} (c : M A) (k : A -> M B) :
  existsb is_Verify (trace c) = false -> (forall a, frugal (k a)) -> frugal (bind c k).
Proof.
  unfold frugal. intros Hc Hk. rewrite count_bind, (frugal_quiet _ Hc).
  destruct (outcome c); [apply Hk | lia].
Qed.

Lemma frugal_jwtVerify (J : Jose) (x : JSON) (key : Key J) (algs : list string) :
  frugal (call_jwtVerify J x key algs).
Proof.
  unfold frugal, call_jwtVerify. rewrite bind_emit. cbn. lia.
Qed.

Lemma frugal_throw {A : Type} (e : exn) : frugal (@throw A e).
Proof. unfold frugal. cbn. lia. Qed.

Lemma frugal_ret {A : Type} (a : A) : frugal (ret a).
Proof. unfold frugal. cbn. lia. Qed.

Lemma no_verify_in_lift {A : Type} (r : result A) : existsb is_Verify (trace (lift r)) = false.
Proof. reflexivity. Qed.

Lemma no_verify_in_decode (J : Jose) (x : JSON) :
  existsb is_Verify (trace (call_decodeProtectedHeader J x)) = false.
Proof.
  unfold call_decodeProtectedHeader. rewrite bind_emit. reflexivity.
Qed.

Ltac frugal_steps :=
  repeat first
    [ apply frugal_jwtVerify | apply frugal_throw | apply frugal_ret
    | apply frugal_bind; [first [apply no_verify_in_lift | apply no_verify_in_decode] | intros ?]
    | match goal with
      | |- frugal (if ?b then _ else _) => destruct b
      | |- frugal (match ?x with _ => _ end) => destruct x
      end ].

Lemma asks_ret {A : Type} (a : A) : asks_ES256_only (ret a).
Proof. reflexivity. Qed.

Lemma well_behaved_nested (verify : JSON -> M JSON) (note : JSON) (k : string) :
  (forall x, well_behaved (verify x)) ->
  well_behaved
    (if truthy (get (get note "data") k) then
       data <~ lift (get_strict note "data") ;;
       token <~ lift (get_strict data k) ;;
       verify token
     else ret JNull).
Proof.
  intros Hv. destruct (truthy _).
  - split; [| split].
    + apply silent_bind; [apply silent_lift | intros data].
      apply silent_bind; [apply silent_lift | intros token]. apply Hv.
    + apply frugal_bind; [apply no_verify_in_lift | intros data].
      apply frugal_bind; [apply no_verify_in_lift | intros token]. apply Hv.
    + apply asks_bind; [apply asks_lift | intros data].
      apply asks_bind; [apply asks_lift | intros token]. apply Hv.
  - split; [apply silent_ret | split; [apply frugal_ret | apply asks_ret]].
Qed.

Lemma webhook_well_behaved (rt : Runtime) (J : Jose) (keys : list JSON) (jws : JSON) :
  well_behaved (Webhook.verifyAndDecode rt J keys jws).
Proof.
  split; [apply webhook_verify_silent | split; [| apply webhook_asks_ES256_only]].
  unfold Webhook.verifyAndDecode. frugal_steps.
Qed.

Lemma webhook_nested_well_behaved
    (rt : Runtime) (J : Jose) (keys : list JSON) (note : JSON) (k : string) :
  well_behaved (Webhook.nested rt J keys note k).
Proof.
  unfold Webhook.nested. destruct (truthy _).
  - split; [| split].
    + repeat (apply silent_bind; [apply silent_lift | intros ?]). apply webhook_well_behaved.
    + repeat (apply frugal_bind; [apply no_verify_in_lift | intros ?]). apply webhook_well_behaved.
    + repeat (apply asks_bind; [apply asks_lift | intros ?]). apply webhook_well_behaved.
  - split; [apply silent_ret | split; [apply frugal_ret | apply asks_ret]].
Qed.

Lemma webhookKid_well_behaved (J : Jose) (keys : list JSON) (jws : JSON) :
  well_behaved (WebhookKid.verifyAndDecode J keys jws).
Proof.
  split; [apply webhookKid_verify_silent | split; [| apply webhookKid_asks_ES256_only]].
  unfold WebhookKid.verifyAndDecode. frugal_steps.
Qed.

Lemma assn_well_behaved (J : Jose) (jws : JSON) : well_behaved (Assn.verifyAndDecode J jws).
Proof.
  split; [apply assn_verify_silent | split; [| apply assn_asks_ES256_only]].
  unfold Assn.verifyAndDecode. frugal_steps.
Qed.

Lemma webhookLocal_well_behaved
    (J : Jose) (mk : JSON -> Key J) (doc : JSON) (jws : JSON) :
  well_behaved (WebhookLocal.verifyAndDecode J mk doc jws).
Proof.
  unfold WebhookLocal.verifyAndDecode.
  split; [apply silent_jwtVerify | split; [apply frugal_jwtVerify | apply asks_jwtVerify]].
Qed.

Lemma within_bounds_nil (r : Response) : within_bounds ([], r).
Proof.
  unfold within_bounds. cbn. split; [lia | split; [lia | reflexivity]].
Qed.

Lemma forwards_verified_only_nil (rt : Runtime) (env : Env) (now : Z)
    (verify : JSON -> M JSON) (nested : JSON -> string -> M JSON) (r : Response) :
  forwards_verified_only rt env now verify nested ([], r).
Proof.
  intros url secret out [].
Qed.

Lemma try_catch_nil (e : exn) (k : JSON -> M Response) :
  try_catch (bind (lift (Throw e)) k) = ([], Send 400 (String_of_exn e)).
Proof.
  reflexivity.
Qed.

(** Over a whole request an endpoint asks jose for three verifications at
    most (the notification and its two nested tokens), each under ES256
    alone, and forwards one record at most. *)
Theorem request_within_bounds
    (rt : Runtime) (J : Jose) (env : Env) (keys : list JSON) (now : Z)
    (createLocalJWKSet : JSON -> Key J) (doc : JSON) :
  (forall req, within_bounds (Webhook.handler rt J env keys now req)) /\
  (forall req, within_bounds (WebhookKid.handler rt J env keys now req)) /\
  (forall req, within_bounds (Assn.handler rt J env now req)) /\
  (forall req, within_bounds (WebhookLocal.handler rt J env createLocalJWKSet doc now req)) /\
  (forall verify, (forall x, well_behaved (verify x)) ->
     forall req, within_bounds (WebhookBare.handler rt env verify now req)).
Proof.
  split; [| split; [| split; [| split]]].
  - intros req. unfold Webhook.handler.
    destruct (String.eqb _ "GET"); [apply within_bounds_nil |].
    destruct (negb _); [apply within_bounds_nil |].
    destruct (Webhook.stream req) as [raw | e]; [| apply within_bounds_nil].
    rewrite bind_lift_Ok.
    destruct (truthy _); [| apply within_bounds_nil].
    destruct (String_ _) as [jws | e]; [| apply within_bounds_nil].
    rewrite bind_lift_Ok.
    apply (layers_within_bounds rt env now _ (Webhook.nested rt J keys));
      try apply webhook_well_behaved.
    intros n k. apply webhook_nested_well_behaved.
  - intros req. unfold WebhookKid.handler.
    destruct (String.eqb _ "GET"); [apply within_bounds_nil |].
    destruct (negb _); [apply within_bounds_nil |].
    destruct (truthy _); [| apply within_bounds_nil].
    apply (layers_within_bounds rt env now _ (WebhookKid.nested J keys));
      try apply webhookKid_well_behaved.
    intros n k. apply (well_behaved_nested (WebhookKid.verifyAndDecode J keys)).
    apply webhookKid_well_behaved.
  - intros req. unfold Assn.handler.
    destruct (String.eqb _ "GET"); [apply within_bounds_nil |].
    destruct (negb (String.eqb _ _)); [apply within_bounds_nil |].
    destruct (negb (truthy _)); [apply within_bounds_nil |].
    apply (layers_within_bounds rt env now _ (Assn.nested J));
      try apply assn_well_behaved.
    intros n k. apply (well_behaved_nested (Assn.verifyAndDecode J)).
    apply assn_well_behaved.
  - intros req. unfold WebhookLocal.handler.
    destruct (String.eqb _ "GET"); [apply within_bounds_nil |].
    destruct (negb _); [apply within_bounds_nil |].
    destruct (truthy _); [| apply within_bounds_nil].
    apply (layers_within_bounds rt env now _ (WebhookLocal.nested J createLocalJWKSet doc));
      try apply webhookLocal_well_behaved.
    intros n k.
    apply (well_behaved_nested (WebhookLocal.verifyAndDecode J createLocalJWKSet doc)).
    apply webhookLocal_well_behaved.
  - intros verify Hv req. unfold WebhookBare.handler.
    destruct (String.eqb _ "GET"); [apply within_bounds_nil |].
    destruct (negb _); [apply within_bounds_nil |].
    destruct (truthy _); [| apply within_bounds_nil].
    apply (layers_within_bounds rt env now _ (WebhookBare.nested verify));
      try apply Hv.
    intros n k. apply (well_behaved_nested verify), Hv.
Qed.

Lemma request_within_bounds_witness :
  within_bounds
    (WebhookBare.handler Fixture.rt Fixture.env
       (WebhookKid.verifyAndDecode Fixture.jose Fixture.appleKeys) Fixture.clock
       (WebhookBare.mkRequest "POST" (JObj [("signedPayload", JStr "outer.good")]))).
Proof.
  apply (request_within_bounds Fixture.rt Fixture.jose Fixture.env Fixture.appleKeys
           Fixture.clock fixtureLocalJWKSet JNull).
  intros x. apply webhookKid_well_behaved.
Defined.

Lemma M_eta {A : Type} (c : M A) : c = (trace c, outcome c).
Proof.
  destruct c; reflexivity.
Qed.

Lemma try_catch_eta (c : M Response) :
  try_catch c =
  (trace c, match outcome c with Ok r => r | Throw e => Send 400 (String_of_exn e) end).
Proof.
  destruct c as [t [r | e]]; reflexivity.
Qed.

Lemma layers_delivered (rt : Runtime) (env : Env) (now : Z)
    (outer : M JSON) (nested : JSON -> string -> M JSON)
    (note txnInfo renInfo out : JSON) :
  outcome outer = Ok note ->
  outcome (nested note "signedTransactionInfo") = Ok txnInfo ->
  outcome (nested note "signedRenewalInfo") = Ok renInfo ->
  normalize rt now note txnInfo renInfo = Ok out ->
  delivered rt env
    (trace outer ++ trace (nested note "signedTransactionInfo") ++
     trace (nested note "signedRenewalInfo")) out
    (try_catch (layers rt env now outer nested)).
Proof.
  intros H0 H1 H2 H3. unfold delivered.
  rewrite try_catch_eta, trace_layers, outcome_layers, H0. cbn [bind_result].
  rewrite H1. cbn [bind_result]. rewrite H2. cbn [bind_result].
  rewrite H3. cbn [bind_result]. repeat rewrite <- app_assoc.
  destruct (fetch rt _ _ out); reflexivity.
Qed.

Lemma layers_refused_outer (rt : Runtime) (env : Env) (now : Z)
    (outer : M JSON) (nested : JSON -> string -> M JSON) (e : exn) :
  silent outer ->
  outcome outer = Throw e ->
  refused (trace outer) e (try_catch (layers rt env now outer nested)).
Proof.
  intros Hs H0. split; [| exact Hs].
  rewrite try_catch_eta, trace_layers, outcome_layers, H0, app_nil_r. reflexivity.
Qed.

Lemma layers_refused_record (rt : Runtime) (env : Env) (now : Z)
    (outer : M JSON) (nested : JSON -> string -> M JSON)
    (note txnInfo renInfo : JSON) (e : exn) :
  silent outer ->
  (forall n k, silent (nested n k)) ->
  outcome outer = Ok note ->
  outcome (nested note "signedTransactionInfo") = Ok txnInfo ->
  outcome (nested note "signedRenewalInfo") = Ok renInfo ->
  normalize rt now note txnInfo renInfo = Throw e ->
  refused
    (trace outer ++ trace (nested note "signedTransactionInfo") ++
     trace (nested note "signedRenewalInfo")) e
    (try_catch (layers rt env now outer nested)).
Proof.
  intros Hs Hn H0 H1 H2 H3. split.
  - rewrite try_catch_eta, trace_layers, outcome_layers, H0. cbn [bind_result].
    rewrite H1. cbn [bind_result]. rewrite H2. cbn [bind_result].
    rewrite H3. cbn [bind_result]. rewrite !app_nil_r. reflexivity.
  - rewrite !existsb_app, Hs, (Hn note "signedTransactionInfo"),
      (Hn note "signedRenewalInfo"). reflexivity.
Qed.

Lemma silent_nested (verify : JSON -> M JSON) (note : JSON) (k : string) :
  (forall x, silent (verify x)) ->
  silent
    (if truthy (get (get note "data") k) then
       data <~ lift (get_strict note "data") ;;
       token <~ lift (get_strict data k) ;;
       verify token
     else ret JNull).
Proof.
  intros Hv. destruct (truthy _); [| apply silent_ret].
  apply silent_bind; [apply silent_lift | intros data].
  apply silent_bind; [apply silent_lift | intros token]. apply Hv.
Qed.

(** A record reaches the downstream endpoint only as the last step of a
    request whose three layers have all verified: what is forwarded is the
    record built from the verified notification and its verified (or
    absent) nested layers, to the configured url with the configured
    secret. *)
Theorem forwarded_record_is_verified
    (rt : Runtime) (J : Jose) (env : Env) (keys : list JSON) (now : Z)
    (createLocalJWKSet : JSON -> Key J) (doc : JSON) :
  (forall req,
     forwards_verified_only rt env now
       (Webhook.verifyAndDecode rt J keys) (Webhook.nested rt J keys)
       (Webhook.handler rt J env keys now req)) /\
  (forall req,
     forwards_verified_only rt env now
       (WebhookKid.verifyAndDecode J keys) (WebhookKid.nested J keys)
       (WebhookKid.handler rt J env keys now req)) /\
  (forall req,
     forwards_verified_only rt env now
       (Assn.verifyAndDecode J) (Assn.nested J)
       (Assn.handler rt J env now req)) /\
  (forall req,
     forwards_verified_only rt env now
       (WebhookLocal.verifyAndDecode J createLocalJWKSet doc)
       (WebhookLocal.nested J createLocalJWKSet doc)
       (WebhookLocal.handler rt J env createLocalJWKSet doc now req)) /\
  (forall verify, (forall x, silent (verify x)) ->
     forall req,
       forwards_verified_only rt env now verify (WebhookBare.nested verify)
         (WebhookBare.handler rt env verify now req)).
Proof.
  assert (G : forall (verify : JSON -> M JSON) (nested : JSON -> string -> M JSON) token,
             (forall x, silent (verify x)) -> (forall n k, silent (nested n k)) ->
             forwards_verified_only rt env now verify nested
               (try_catch (layers rt env now (verify token) nested))).
  { intros verify nested token Hv Hn url secret out Hin.
    rewrite fst_try_catch in Hin.
    destruct (layers_forward_inv rt env now _ _ url secret out (Hv token) Hn Hin)
      as (Hu & Hsec & note & txnInfo & renInfo & H).
    split; [exact Hu | split; [exact Hsec |]].
    exists token, note, txnInfo, renInfo. exact H. }
  split; [| split; [| split; [| split]]].
  - intros req. unfold Webhook.handler.
    destruct (String.eqb _ "GET"); [apply forwards_verified_only_nil |].
    destruct (negb _); [apply forwards_verified_only_nil |].
    destruct (Webhook.stream req) as [raw | e]; [| apply forwards_verified_only_nil].
    rewrite bind_lift_Ok.
    destruct (truthy _); [| apply forwards_verified_only_nil].
    destruct (String_ _) as [jws | e]; [| apply forwards_verified_only_nil].
    rewrite bind_lift_Ok.
    apply (G (Webhook.verifyAndDecode rt J keys) (Webhook.nested rt J keys) (JStr jws)).
    + apply webhook_verify_silent.
    + apply webhook_nested_silent.
  - intros req. unfold WebhookKid.handler.
    destruct (String.eqb _ "GET"); [apply forwards_verified_only_nil |].
    destruct (negb _); [apply forwards_verified_only_nil |].
    destruct (truthy _); [| apply forwards_verified_only_nil].
    apply (G (WebhookKid.verifyAndDecode J keys) (WebhookKid.nested J keys)).
    + apply webhookKid_verify_silent.
    + apply webhookKid_nested_silent.
  - intros req. unfold Assn.handler.
    destruct (String.eqb _ "GET"); [apply forwards_verified_only_nil |].
    destruct (negb (String.eqb _ _)); [apply forwards_verified_only_nil |].
    destruct (negb (truthy _)); [apply forwards_verified_only_nil |].
    apply (G (Assn.verifyAndDecode J) (Assn.nested J)).
    + apply assn_verify_silent.
    + apply assn_nested_silent.
  - intros req. unfold WebhookLocal.handler.
    destruct (String.eqb _ "GET"); [apply forwards_verified_only_nil |].
    destruct (negb _); [apply forwards_verified_only_nil |].
    destruct (truthy _); [| apply forwards_verified_only_nil].
    apply (G (WebhookLocal.verifyAndDecode J createLocalJWKSet doc)
             (WebhookLocal.nested J createLocalJWKSet doc)).
    + intros x. apply webhookLocal_well_behaved.
    + intros n k.
      apply (silent_nested (WebhookLocal.verifyAndDecode J createLocalJWKSet doc)).
      intros x. apply webhookLocal_well_behaved.
  - intros verify Hv req. unfold WebhookBare.handler.
    destruct (String.eqb _ "GET"); [apply forwards_verified_only_nil |].
    destruct (negb _); [apply forwards_verified_only_nil |].
    destruct (truthy _); [| apply forwards_verified_only_nil].
    apply (G verify (WebhookBare.nested verify)); [exact Hv |].
    intros n k. apply (silent_nested verify), Hv.
Qed.

Lemma forwarded_record_is_verified_witness :
  exists out,
    In (Forward (Some "https://example.bubbleapps.io/hook") "" out)
       (fst (WebhookKid.handler Fixture.rt Fixture.jose Fixture.env Fixture.appleKeys
               Fixture.clock
               (WebhookKid.mkRequest "POST" (JObj [("signedPayload", JStr "outer.good")])))) /\
    exists token note txnInfo renInfo,
      outcome (WebhookKid.verifyAndDecode Fixture.jose Fixture.appleKeys token) = Ok note /\
      outcome (WebhookKid.nested Fixture.jose Fixture.appleKeys note "signedTransactionInfo")
        = Ok txnInfo /\
      outcome (WebhookKid.nested Fixture.jose Fixture.appleKeys note "signedRenewalInfo")
        = Ok renInfo /\
      normalize Fixture.rt Fixture.clock note txnInfo renInfo = Ok out.
Proof.
  eexists. split.
  - vm_compute. do 6 right. left. reflexivity.
  - apply (proj1 (proj2 (forwarded_record_is_verified Fixture.rt Fixture.jose Fixture.env
                           Fixture.appleKeys Fixture.clock fixtureLocalJWKSet JNull))
             (WebhookKid.mkRequest "POST" (JObj [("signedPayload", JStr "outer.good")]))
             (Some "https://example.bubbleapps.io/hook") "").
    vm_compute. do 6 right. left. reflexivity.
Defined.

(** ** What a request is answered *)

Lemma layers_status (rt : Runtime) (env : Env) (now : Z)
    (outer : M JSON) (nested : JSON -> string -> M JSON) :
  let run := try_catch (layers rt env now outer nested) in
  status_of (snd run) = 200 \/ status_of (snd run) = 400.
Proof.
  cbv zeta. rewrite try_catch_eta, outcome_layers. cbn [snd].
  destruct (outcome outer) as [note |]; cbn [bind_result]; [| right; reflexivity].
  destruct (outcome (nested note _)) as [txnInfo |]; cbn [bind_result]; [| right; reflexivity].
  destruct (outcome (nested note _)) as [renInfo |]; cbn [bind_result]; [| right; reflexivity].
  destruct (normalize _ _ _ _ _) as [out |]; cbn [bind_result]; [| right; reflexivity].
  destruct (fetch _ _ _ _); cbn [bind_result]; [left | right]; reflexivity.
Qed.

Ltac by_method req_method :=
  split; [intros ->; reflexivity |];
  split;
  [ intros Hget Hpost;
    apply String.eqb_neq in Hget; apply String.eqb_neq in Hpost;
    rewrite Hget, Hpost; reflexivity
  | intros -> ; cbn [String.eqb Ascii.eqb Bool.eqb negb] ].

(** GET is answered 200 ok and any method other than GET and POST 405,
    both without reading the body or calling anything; a POST is answered
    200 or 400 and nothing else. *)
Theorem requests_answered_by_method
    (rt : Runtime) (J : Jose) (env : Env) (keys : list JSON) (now : Z)
    (createLocalJWKSet : JSON -> Key J) (doc : JSON) (verify : JSON -> M JSON) :
  (forall req, answers_by_method (Webhook.method req)
                 (Webhook.handler rt J env keys now req)) /\
  (forall req, answers_by_method (WebhookKid.method req)
                 (WebhookKid.handler rt J env keys now req)) /\
  (forall req, answers_by_method (Assn.method req) (Assn.handler rt J env now req)) /\
  (forall req, answers_by_method (WebhookLocal.method req)
                 (WebhookLocal.handler rt J env createLocalJWKSet doc now req)) /\
  (forall req, answers_by_method (WebhookBare.method req)
                 (WebhookBare.handler rt env verify now req)).
Proof.
  split; [| split; [| split; [| split]]].
  - intros [m stream]. unfold Webhook.handler. cbn [Webhook.method Webhook.stream].
    by_method m.
    destruct stream as [raw | e]; [| right; reflexivity].
    rewrite bind_lift_Ok.
    destruct (truthy _); [| left; reflexivity].
    destruct (String_ _) as [jws | e]; [| right; reflexivity].
    rewrite bind_lift_Ok.
    apply (layers_status rt env now _ (Webhook.nested rt J keys)).
  - intros [m body]. unfold WebhookKid.handler. cbn [WebhookKid.method WebhookKid.body].
    by_method m.
    destruct (truthy _); [| left; reflexivity].
    apply (layers_status rt env now _ (WebhookKid.nested J keys)).
  - intros [m body]. unfold Assn.handler. cbn [Assn.method Assn.body].
    by_method m.
    destruct (negb (truthy _)); [right; reflexivity |].
    apply (layers_status rt env now _ (Assn.nested J)).
  - intros [m body]. unfold WebhookLocal.handler.
    cbn [WebhookLocal.method WebhookLocal.body].
    by_method m.
    destruct (truthy _); [| left; reflexivity].
    apply (layers_status rt env now _ (WebhookLocal.nested J createLocalJWKSet doc)).
  - intros [m body]. unfold WebhookBare.handler.
    cbn [WebhookBare.method WebhookBare.body].
    by_method m.
    destruct (truthy _); [| left; reflexivity].
    apply (layers_status rt env now _ (WebhookBare.nested verify)).
Qed.

Lemma layers_delivers (rt : Runtime) (env : Env) (now : Z)
    (outer : M JSON) (nested : JSON -> string -> M JSON) :
  delivers_on_success rt env now outer nested (try_catch (layers rt env now outer nested)).
Proof.
  intros note txnInfo renInfo out. apply layers_delivered.
Qed.

Lemma layers_refuses (rt : Runtime) (env : Env) (now : Z)
    (outer : M JSON) (nested : JSON -> string -> M JSON) :
  silent outer ->
  (forall n k, silent (nested n k)) ->
  refuses_on_failure rt now outer nested (try_catch (layers rt env now outer nested)).
Proof.
  intros Hs Hn. split.
  - intros e. apply layers_refused_outer, Hs.
  - intros note txnInfo renInfo e. apply layers_refused_record; assumption.
Qed.

(** Once the three layers have verified and the record is built, it is
    forwarded, once and last; the request is then answered 200 with the
    status of the downstream endpoint, whatever that status is, and 400
    with the text of the error when the forwarding itself is rejected. *)
Theorem verified_request_is_forwarded_once
    (rt : Runtime) (J : Jose) (env : Env) (keys : list JSON) (now : Z)
    (createLocalJWKSet : JSON -> Key J) (doc : JSON) (verify : JSON -> M JSON) :
  (forall (req : Webhook.Request) (raw jws : string),
     Webhook.method req = "POST" ->
     Webhook.stream req = Ok raw ->
     let body := match JSON_parse rt raw with Ok v => v | Throw _ => JObj [] end in
     truthy (get body "signedPayload") = true ->
     String_ (get body "signedPayload") = Ok jws ->
     delivers_on_success rt env now
       (Webhook.verifyAndDecode rt J keys (JStr jws)) (Webhook.nested rt J keys)
       (Webhook.handler rt J env keys now req)) /\
  (forall req : WebhookKid.Request,
     WebhookKid.method req = "POST" ->
     truthy (get (WebhookKid.body req) "signedPayload") = true ->
     delivers_on_success rt env now
       (WebhookKid.verifyAndDecode J keys (get (WebhookKid.body req) "signedPayload"))
       (WebhookKid.nested J keys)
       (WebhookKid.handler rt J env keys now req)) /\
  (forall req : Assn.Request,
     Assn.method req = "POST" ->
     truthy (get (Assn.body req) "signedPayload") = true ->
     delivers_on_success rt env now
       (Assn.verifyAndDecode J (get (Assn.body req) "signedPayload")) (Assn.nested J)
       (Assn.handler rt J env now req)) /\
  (forall req : WebhookLocal.Request,
     WebhookLocal.method req = "POST" ->
     truthy (get (WebhookLocal.body req) "signedPayload") = true ->
     delivers_on_success rt env now
       (WebhookLocal.verifyAndDecode J createLocalJWKSet doc
          (get (WebhookLocal.body req) "signedPayload"))
       (WebhookLocal.nested J createLocalJWKSet doc)
       (WebhookLocal.handler rt J env createLocalJWKSet doc now req)) /\
  (forall req : WebhookBare.Request,
     WebhookBare.method req = "POST" ->
     truthy (get (WebhookBare.body req) "signedPayload") = true ->
     delivers_on_success rt env now
       (verify (get (WebhookBare.body req) "signedPayload")) (WebhookBare.nested verify)
       (WebhookBare.handler rt env verify now req)).
Proof.
  split; [| split; [| split; [| split]]].
  - intros req raw jws Hpost Hraw body Hsp Hjws.
    unfold Webhook.handler. rewrite Hpost, Hraw. cbn [String.eqb Ascii.eqb Bool.eqb negb].
    rewrite bind_lift_Ok. fold body. rewrite Hsp, Hjws, bind_lift_Ok.
    apply (layers_delivers rt env now _ (Webhook.nested rt J keys)).
  - intros req Hpost Hsp.
    unfold WebhookKid.handler. rewrite Hpost, Hsp. cbn [String.eqb Ascii.eqb Bool.eqb negb].
    apply (layers_delivers rt env now _ (WebhookKid.nested J keys)).
  - intros req Hpost Hsp.
    assert (Hbody : js_or (Assn.body req) (JObj []) = Assn.body req).
    { unfold js_or. destruct (Assn.body req); try discriminate; reflexivity. }
    unfold Assn.handler. rewrite Hpost, Hbody, Hsp. cbn [String.eqb Ascii.eqb Bool.eqb negb].
    apply (layers_delivers rt env now _ (Assn.nested J)).
  - intros req Hpost Hsp.
    unfold WebhookLocal.handler. rewrite Hpost, Hsp.
    cbn [String.eqb Ascii.eqb Bool.eqb negb].
    apply (layers_delivers rt env now _ (WebhookLocal.nested J createLocalJWKSet doc)).
  - intros req Hpost Hsp.
    unfold WebhookBare.handler. rewrite Hpost, Hsp.
    cbn [String.eqb Ascii.eqb Bool.eqb negb].
    apply (layers_delivers rt env now _ (WebhookBare.nested verify)).
Qed.

Lemma verified_request_is_forwarded_once_witness :
  exists before out,
    delivered Fixture.rt Fixture.env before out
      (Assn.handler Fixture.rt Fixture.jose Fixture.env Fixture.clock
         (Assn.mkRequest "POST" (JObj [("signedPayload", JStr "outer.good")]))) /\
    get out "operation" = JStr "purchase".
Proof.
  eexists. eexists. split.
  - apply (proj1 (proj2 (proj2
             (verified_request_is_forwarded_once Fixture.rt Fixture.jose Fixture.env
                Fixture.appleKeys Fixture.clock fixtureLocalJWKSet JNull
                (Assn.verifyAndDecode Fixture.jose))))
             (Assn.mkRequest "POST" (JObj [("signedPayload", JStr "outer.good")]))
             eq_refl eq_refl
             (Fixture.note "SUBSCRIBED" (JStr "txn.good") (JStr "ren.good"))
             Fixture.txnClaims Fixture.renClaims).
    + reflexivity.
    + reflexivity.
    + reflexivity.
    + vm_compute. reflexivity.
  - reflexivity.
Defined.

(** A request whose notification does not verify is answered 400 with the
    text of the error before any nested token is looked at; one whose
    layers all verify but whose record cannot be built is answered 400 with
    the text of that error; neither forwards anything. *)
Theorem failed_request_is_refused_unforwarded
    (rt : Runtime) (J : Jose) (env : Env) (keys : list JSON) (now : Z)
    (createLocalJWKSet : JSON -> Key J) (doc : JSON) :
  (forall (req : Webhook.Request) (raw jws : string),
     Webhook.method req = "POST" ->
     Webhook.stream req = Ok raw ->
     let body := match JSON_parse rt raw with Ok v => v | Throw _ => JObj [] end in
     truthy (get body "signedPayload") = true ->
     String_ (get body "signedPayload") = Ok jws ->
     refuses_on_failure rt now
       (Webhook.verifyAndDecode rt J keys (JStr jws)) (Webhook.nested rt J keys)
       (Webhook.handler rt J env keys now req)) /\
  (forall req : WebhookKid.Request,
     WebhookKid.method req = "POST" ->
     truthy (get (WebhookKid.body req) "signedPayload") = true ->
     refuses_on_failure rt now
       (WebhookKid.verifyAndDecode J keys (get (WebhookKid.body req) "signedPayload"))
       (WebhookKid.nested J keys)
       (WebhookKid.handler rt J env keys now req)) /\
  (forall req : Assn.Request,
     Assn.method req = "POST" ->
     truthy (get (Assn.body req) "signedPayload") = true ->
     refuses_on_failure rt now
       (Assn.verifyAndDecode J (get (Assn.body req) "signedPayload")) (Assn.nested J)
       (Assn.handler rt J env now req)) /\
  (forall req : WebhookLocal.Request,
     WebhookLocal.method req = "POST" ->
     truthy (get (WebhookLocal.body req) "signedPayload") = true ->
     refuses_on_failure rt now
       (WebhookLocal.verifyAndDecode J createLocalJWKSet doc
          (get (WebhookLocal.body req) "signedPayload"))
       (WebhookLocal.nested J createLocalJWKSet doc)
       (WebhookLocal.handler rt J env createLocalJWKSet doc now req)) /\
  (forall (verify : JSON -> M JSON) (req : WebhookBare.Request),
     (forall x, silent (verify x)) ->
     WebhookBare.method req = "POST" ->
     truthy (get (WebhookBare.body req) "signedPayload") = true ->
     refuses_on_failure rt now
       (verify (get (WebhookBare.body req) "signedPayload")) (WebhookBare.nested verify)
       (WebhookBare.handler rt env verify now req)).
Proof.
  split; [| split; [| split; [| split]]].
  - intros req raw jws Hpost Hraw body Hsp Hjws.
    unfold Webhook.handler. rewrite Hpost, Hraw. cbn [String.eqb Ascii.eqb Bool.eqb negb].
    rewrite bind_lift_Ok. fold body. rewrite Hsp, Hjws, bind_lift_Ok.
    apply (layers_refuses rt env now _ (Webhook.nested rt J keys)).
    + apply webhook_verify_silent.
    + apply webhook_nested_silent.
  - intros req Hpost Hsp.
    unfold WebhookKid.handler. rewrite Hpost, Hsp. cbn [String.eqb Ascii.eqb Bool.eqb negb].
    apply (layers_refuses rt env now _ (WebhookKid.nested J keys)).
    + apply webhookKid_verify_silent.
    + apply webhookKid_nested_silent.
  - intros req Hpost Hsp.
    assert (Hbody : js_or (Assn.body req) (JObj []) = Assn.body req).
    { unfold js_or. destruct (Assn.body req); try discriminate; reflexivity. }
    unfold Assn.handler. rewrite Hpost, Hbody, Hsp. cbn [String.eqb Ascii.eqb Bool.eqb negb].
    apply (layers_refuses rt env now _ (Assn.nested J)).
    + apply assn_verify_silent.
    + apply assn_nested_silent.
  - intros req Hpost Hsp.
    unfold WebhookLocal.handler. rewrite Hpost, Hsp.
    cbn [String.eqb Ascii.eqb Bool.eqb negb].
    apply (layers_refuses rt env now _ (WebhookLocal.nested J createLocalJWKSet doc)).
    + apply webhookLocal_well_behaved.
    + intros n k.
      apply (silent_nested (WebhookLocal.verifyAndDecode J createLocalJWKSet doc)).
      intros x. apply webhookLocal_well_behaved.
  - intros verify req Hv Hpost Hsp.
    unfold WebhookBare.handler. rewrite Hpost, Hsp.
    cbn [String.eqb Ascii.eqb Bool.eqb negb].
    apply (layers_refuses rt env now _ (WebhookBare.nested verify)).
    + apply Hv.
    + intros n k. apply (silent_nested verify), Hv.
Qed.

Lemma failed_request_is_refused_unforwarded_witness :
  refused [DecodeHeader (JStr "unknown.kid")] (KeyNotFound "k9")
    (WebhookKid.handler Fixture.rt Fixture.jose Fixture.env Fixture.appleKeys Fixture.clock
       (WebhookKid.mkRequest "POST" (JObj [("signedPayload", JStr "unknown.kid")]))).
Proof.
  exact (proj1 (proj1 (proj2
           (failed_request_is_refused_unforwarded Fixture.rt Fixture.jose Fixture.env
              Fixture.appleKeys Fixture.clock fixtureLocalJWKSet JNull))
           (WebhookKid.mkRequest "POST" (JObj [("signedPayload", JStr "unknown.kid")]))
           eq_refl eq_refl)
         (KeyNotFound "k9") eq_refl).
Defined.

(** ** What a verifier returns *)

Lemma genuine_throw (J : Jose) (jws : JSON) (e : exn) : genuine J jws (throw e).
Proof.
  intros payload H. discriminate.
Qed.

Lemma genuine_jwtVerify (J : Jose) (jws : JSON) (key : Key J) :
  genuine J jws (call_jwtVerify J jws key ["ES256"]).
Proof.
  intros payload H. rewrite outcome_call_jwtVerify in H.
  exists key. split; [exact H |].
  unfold call_jwtVerify. rewrite bind_emit. left. reflexivity.
Qed.

Lemma genuine_bind {A : Type} (J : Jose) (jws : JSON) (c : M A) (k : A -> M JSON) :
  (forall a, genuine J jws (k a)) -> genuine J jws (bind c k).
Proof.
  intros Hk payload H. rewrite outcome_bind in H.
  destruct (outcome c) as [a |] eqn:E; [| discriminate].
  destruct (Hk a payload H) as (key & Hkey & Hin).
  exists key. split; [exact Hkey |].
  rewrite trace_bind, E. apply in_or_app. right. exact Hin.
Qed.

Ltac genuine_steps :=
  repeat first
    [ apply genuine_jwtVerify | apply genuine_throw
    | apply genuine_bind; intros ?
    | match goal with
      | |- genuine _ _ (if ?b then _ else _) => destruct b
      end ].

(** A verifier returns a payload only if jose has verified that very
    token, under ES256 alone, and returned that payload: no path through
    key resolution yields claims that jose did not vouch for. *)
Theorem payload_is_what_jose_verified
    (rt : Runtime) (J : Jose) (keys : list JSON)
    (createLocalJWKSet : JSON -> Key J) (doc : JSON) (jws : JSON) :
  genuine J jws (Webhook.verifyAndDecode rt J keys jws) /\
  genuine J jws (WebhookKid.verifyAndDecode J keys jws) /\
  genuine J jws (Assn.verifyAndDecode J jws) /\
  genuine J jws (WebhookLocal.verifyAndDecode J createLocalJWKSet doc jws).
Proof.
  split; [| split; [| split]].
  - unfold Webhook.verifyAndDecode.
    destruct jws; try apply genuine_throw. genuine_steps.
  - unfold WebhookKid.verifyAndDecode. genuine_steps.
  - unfold Assn.verifyAndDecode. genuine_steps.
  - unfold WebhookLocal.verifyAndDecode. genuine_steps.
Qed.

Lemma payload_is_what_jose_verified_witness :
  exists key,
    jwtVerify Fixture.jose (JStr "sandbox.x5c") key ["ES256"] = Ok Fixture.txnClaims /\
    In (Verify (JStr "sandbox.x5c") ["ES256"])
       (trace (Webhook.verifyAndDecode Fixture.rt Fixture.jose Fixture.appleKeys
                 (JStr "sandbox.x5c"))).
Proof.
  exact (proj1 (payload_is_what_jose_verified Fixture.rt Fixture.jose Fixture.appleKeys
                  fixtureLocalJWKSet JNull (JStr "sandbox.x5c"))
               Fixture.txnClaims eq_refl).
Defined.

(** A token whose header jose cannot decode is refused with jose's own
    error after that one call: no key is looked up and no verification is
    asked.  api/webhook.js refuses what is not a string before any call. *)
Theorem undecodable_token_is_refused_unverified
    (rt : Runtime) (J : Jose) (keys : list JSON) (jws : JSON) (e : exn) :
  decodeProtectedHeader J jws = Throw e ->
  (is_string jws = true ->
   Webhook.verifyAndDecode rt J keys jws = ([DecodeHeader jws], Throw e)) /\
  (is_string jws = false ->
   Webhook.verifyAndDecode rt J keys jws = ([], Throw (Error "Invalid JWS input"))) /\
  WebhookKid.verifyAndDecode J keys jws = ([DecodeHeader jws], Throw e).
Proof.
  intros Hdec.
  assert (H : call_decodeProtectedHeader J jws = ([DecodeHeader jws], Throw e)).
  { unfold call_decodeProtectedHeader. rewrite bind_emit, Hdec. reflexivity. }
  split; [| split].
  - intros Hs. destruct jws; try discriminate.
    unfold Webhook.verifyAndDecode. rewrite H. reflexivity.
  - intros Hs. destruct jws; try discriminate; reflexivity.
  - unfold WebhookKid.verifyAndDecode. rewrite H. reflexivity.
Qed.

Lemma undecodable_token_is_refused_unverified_witness :
  Webhook.verifyAndDecode Fixture.rt Fixture.jose Fixture.appleKeys (JStr "not.a.token") =
    ([DecodeHeader (JStr "not.a.token")], Throw MalformedToken) /\
  WebhookKid.verifyAndDecode Fixture.jose Fixture.appleKeys (JNum 7) =
    ([DecodeHeader (JNum 7)], Throw Fixture.not_a_string).
Proof.
  split.
  - exact (proj1 (undecodable_token_is_refused_unverified Fixture.rt Fixture.jose
                    Fixture.appleKeys (JStr "not.a.token") MalformedToken eq_refl) eq_refl).
  - exact (proj2 (proj2 (undecodable_token_is_refused_unverified Fixture.rt Fixture.jose
                    Fixture.appleKeys (JNum 7) Fixture.not_a_string eq_refl))).
Defined.

(** On a token whose header carries a truthy kid, api/webhook.js does
    exactly what the kid-only endpoint does: the same calls in the same
    order and the same result; the x5c of such a header is never read. *)
Theorem webhook_is_kid_only_on_kid_tokens
    (rt : Runtime) (J : Jose) (keys : list JSON) (s : string) (hdr : JSON) :
  decodeProtectedHeader J (JStr s) = Ok hdr ->
  truthy (get hdr "kid") = true ->
  Webhook.verifyAndDecode rt J keys (JStr s) = WebhookKid.verifyAndDecode J keys (JStr s).
Proof.
  intros Hdec Hkid.
  unfold Webhook.verifyAndDecode, WebhookKid.verifyAndDecode.
  apply bind_ext. intros header Hheader.
  rewrite outcome_call_decodeProtectedHeader, Hdec in Hheader. injection Hheader as <-.
  apply bind_ext. intros kid Hk.
  rewrite outcome_lift in Hk.
  assert (kid = get hdr "kid") as ->.
  { destruct hdr; simpl in Hk; try discriminate; injection Hk as <-; reflexivity. }
  rewrite Hkid. reflexivity.
Qed.

Lemma webhook_is_kid_only_on_kid_tokens_witness :
  Webhook.verifyAndDecode Fixture.rt Fixture.jose Fixture.appleKeys (JStr "txn.good") =
  WebhookKid.verifyAndDecode Fixture.jose Fixture.appleKeys (JStr "txn.good").
Proof.
  exact (webhook_is_kid_only_on_kid_tokens Fixture.rt Fixture.jose Fixture.appleKeys
           "txn.good" (Fixture.es256 "k1") eq_refl eq_refl).
Defined.

(** ** The key set *)

(** The key that the lookup by kid yields is a key of the key set that
    carries that kid, and the first one that does; the lookup throws only
    on a null or undefined entry met before any match. *)
Theorem find_kid_first_match (kid : JSON) (keys : list JSON) (jwk : JSON) :
  find_kid kid keys = Ok jwk ->
  truthy jwk = true ->
  exists before after,
    keys = (before ++ jwk :: after)%list /\
    strict_equals (get jwk "kid") kid = true /\
    forall k, In k before -> strict_equals (get k "kid") kid = false.
Proof.
  revert jwk. induction keys as [| k keys IH]; intros jwk Hfind Hjwk.
  - simpl in Hfind. injection Hfind as <-. discriminate.
  - simpl in Hfind.
    destruct (get_strict k "kid") as [v |] eqn:Hv; cbn [bind_result] in Hfind;
      [| discriminate].
    assert (Hget : v = get k "kid").
    { destruct k; simpl in Hv; try discriminate; injection Hv as <-; reflexivity. }
    subst v.
    destruct (strict_equals (get k "kid") kid) eqn:Heq.
    + injection Hfind as <-. exists [], keys. split; [reflexivity |].
      split; [exact Heq | intros k' []].
    + destruct (IH jwk Hfind Hjwk) as (before & after & -> & Hcarries & Hbefore).
      exists (k :: before), after. split; [reflexivity |].
      split; [exact Hcarries |].
      intros k' [<- | Hin]; [exact Heq | apply Hbefore, Hin].
Qed.

Lemma find_kid_first_match_witness :
  exists before after,
    Fixture.appleKeys =
      (before ++ JObj [("kty", JStr "EC"); ("kid", JStr "k1")] :: after)%list /\
    strict_equals (get (JObj [("kty", JStr "EC"); ("kid", JStr "k1")]) "kid") (JStr "k1")
      = true /\
    forall k, In k before -> strict_equals (get k "kid") (JStr "k1") = false.
Proof.
  exact (find_kid_first_match (JStr "k1") Fixture.appleKeys
           (JObj [("kty", JStr "EC"); ("kid", JStr "k1")]) eq_refl eq_refl).
Defined.

(** ** What api/webhook.js hands to jose *)

Lemma strings_only_lift {A : Type} (r : result A) : strings_only (lift r).
Proof. reflexivity. Qed.

Lemma strings_only_ret {A : Type} (a : A) : strings_only (ret a).
Proof. reflexivity. Qed.

Lemma strings_only_throw {A : Type} (e : exn) : strings_only (@throw A e).
Proof. reflexivity. Qed.

Lemma strings_only_decode (J : Jose) (s : string) :
  strings_only (call_decodeProtectedHeader J (JStr s)).
Proof.
  unfold strings_only, call_decodeProtectedHeader. rewrite bind_emit. reflexivity.
Qed.

Lemma strings_only_jwtVerify (J : Jose) (s : string) (key : Key J) (algs : list string) :
  strings_only (call_jwtVerify J (JStr s) key algs).
Proof.
  unfold strings_only, call_jwtVerify. rewrite bind_emit. reflexivity.
Qed.

Lemma strings_only_bind {A B : Type} (c : M A) (k : A -> M B) :
  strings_only c -> (forall a, strings_only (k a)) -> strings_only (bind c k).
Proof.
  unfold strings_only. intros Hc Hk.
  rewrite trace_bind, forallb_app, Hc. cbn [andb].
  destruct (outcome c); [apply Hk | reflexivity].
Qed.

Lemma strings_only_forward_out (rt : Runtime) (env : Env) (out : JSON) :
  strings_only (forward_out rt env out).
Proof.
  unfold strings_only, forward_out. rewrite bind_emit. cbn [trace fst forallb].
  destruct (fetch rt _ _ out); reflexivity.
Qed.

Ltac strings_steps :=
  repeat first
    [ apply strings_only_lift | apply strings_only_ret | apply strings_only_throw
    | apply strings_only_decode | apply strings_only_jwtVerify
    | apply strings_only_forward_out
    | apply strings_only_bind; [| intros ?]
    | match goal with
      | |- strings_only (if ?b then _ else _) => destruct b
      end ].

Lemma webhook_verify_strings_only (rt : Runtime) (J : Jose) (keys : list JSON) (jws : JSON) :
  strings_only (Webhook.verifyAndDecode rt J keys jws).
Proof.
  unfold Webhook.verifyAndDecode. destruct jws; try apply strings_only_throw.
  strings_steps.
Qed.

Lemma webhook_nested_strings_only
    (rt : Runtime) (J : Jose) (keys : list JSON) (note : JSON) (k : string) :
  strings_only (Webhook.nested rt J keys note k).
Proof.
  unfold Webhook.nested.
  repeat first [ apply webhook_verify_strings_only | progress strings_steps ].
Qed.

(** api/webhook.js hands jose nothing but strings: whatever the body and
    the decoded layers hold, every token that the handler has jose decode
    or verify has been through String first. *)
Theorem webhook_hands_jose_strings_only
    (rt : Runtime) (J : Jose) (env : Env) (keys : list JSON) (now : Z)
    (req : Webhook.Request) :
  forallb hands_jose_a_string (fst (Webhook.handler rt J env keys now req)) = true.
Proof.
  unfold Webhook.handler.
  destruct (String.eqb _ "GET"); [reflexivity |].
  destruct (negb _); [reflexivity |].
  rewrite fst_try_catch.
  repeat first [ apply webhook_verify_strings_only | apply webhook_nested_strings_only
               | progress strings_steps ].
Qed.

(** ** Notifications without nested tokens *)

(** A notification whose data block holds neither nested token costs no
    further call to jose, and its record has no product, no entitlement,
    an empty transaction id, an empty account token and a null expiry. *)
Theorem notification_without_nested_tokens
    (rt : Runtime) (J : Jose) (keys : list JSON)
    (createLocalJWKSet : JSON -> Key J) (doc : JSON) (verify : JSON -> M JSON)
    (now : Z) (note : JSON) :
  truthy (get (get note "data") "signedTransactionInfo") = false ->
  truthy (get (get note "data") "signedRenewalInfo") = false ->
  (forall k, k = "signedTransactionInfo" \/ k = "signedRenewalInfo" ->
     Webhook.nested rt J keys note k = ([], Ok JNull) /\
     WebhookKid.nested J keys note k = ([], Ok JNull) /\
     Assn.nested J note k = ([], Ok JNull) /\
     WebhookLocal.nested J createLocalJWKSet doc note k = ([], Ok JNull) /\
     WebhookBare.nested verify note k = ([], Ok JNull)) /\
  (forall out, normalize rt now note JNull JNull = Ok out ->
     get out "products" = JArr [] /\
     get out "entitlements" = JArr [] /\
     get out "transaction_id" = JStr "" /\
     get out "transaction_expires_at" = JNull /\
     get out "app_account_token" = JStr "").
Proof.
  intros Htxn Hren. split.
  - intros k [-> | ->];
      unfold Webhook.nested, WebhookKid.nested, Assn.nested, WebhookLocal.nested,
        WebhookBare.nested;
      [rewrite Htxn | rewrite Hren]; repeat split; reflexivity.
  - intros out Hout. apply normalize_Ok in Hout.
    destruct Hout as (expiresIso & operation & nowIso & tid & ents &
                      Hexp & _ & _ & Htid & Hents & ->).
    cbn in Hexp, Htid, Hents.
    injection Hexp as <-. injection Htid as <-. injection Hents as <-.
    repeat split; reflexivity.
Qed.

Lemma notification_without_nested_tokens_witness :
  WebhookKid.nested Fixture.jose Fixture.appleKeys
    (JObj [("notificationType", JStr "TEST")]) "signedTransactionInfo" = ([], Ok JNull) /\
  exists out,
    normalize Fixture.rt Fixture.clock (JObj [("notificationType", JStr "TEST")])
              JNull JNull = Ok out /\
    get out "products" = JArr [].
Proof.
  split.
  - apply (notification_without_nested_tokens Fixture.rt Fixture.jose Fixture.appleKeys
             fixtureLocalJWKSet JNull (Assn.verifyAndDecode Fixture.jose) Fixture.clock
             (JObj [("notificationType", JStr "TEST")]) eq_refl eq_refl).
    left. reflexivity.
  - eexists. split; [vm_compute; reflexivity |].
    apply (notification_without_nested_tokens Fixture.rt Fixture.jose Fixture.appleKeys
             fixtureLocalJWKSet JNull (Assn.verifyAndDecode Fixture.jose) Fixture.clock
             (JObj [("notificationType", JStr "TEST")]) eq_refl eq_refl).
    vm_compute. reflexivity.
Defined.
